(** * Slack interactive-messages adapter: registry, matcher and dispatch

    A shallow embedding of [src/adapter.js] (class [SlackMessageAdapter] and
    its module-level helpers) together with the properties of the callback
    registry, the matcher and the response race of [dispatch].

    Conventions of the embedding:
    - JavaScript values are the inductive [value]; objects carry an identity
      so that [===] can be modelled; promises are kept apart in [promise]
      and described by when and how they settle;
    - a handler is known by what a call of it does: what it returns or
      throws, its side effects, and its calls of [respond];
    - code that may throw returns a [completion];
    - methods that mutate [this] are state-passing functions on [adapter];
    - time is counted in milliseconds from the moment [dispatch] is called. *)

From Stdlib Require Import List ZArith String Bool Lia DecimalString.
Import ListNotations.
Open Scope string_scope.
Open Scope Z_scope.
Set Warnings "-register-all".

(** ** JavaScript values *)

Inductive value : Type :=
| VUndefined
| VNull
| VBool (b : bool)
| VNumber (n : Z)
| VNaN
| VString (s : string)
| VRegExp (id : nat) (source : string) (test : string -> bool)
    (* a RegExp object: its text [/.../flags] and its [.test] method on a
       string, taken without the [lastIndex] state of global patterns *)
| VObject (id : nat) (props : list (string * value)).
    (* any other object, with its identity and its own properties; none of
       them is callable and none is a String wrapper object *)

(** Truthiness ([ToBoolean]). *)
Definition truthy (v : value) : bool :=
  match v with
  | VUndefined | VNull | VNaN => false
  | VBool b => b
  | VNumber n => negb (n =? 0)
  | VString s => negb (String.eqb s "")
  | VRegExp _ _ _ | VObject _ _ => true
  end.

(** Strict equality ([===]): primitives by value, objects by identity,
    [NaN] different from everything. *)
Definition strict_equal (x y : value) : bool :=
  match x, y with
  | VUndefined, VUndefined => true
  | VNull, VNull => true
  | VBool a, VBool b => Bool.eqb a b
  | VNumber a, VNumber b => a =? b
  | VString a, VString b => String.eqb a b
  | VRegExp i _ _, VRegExp j _ _ => Nat.eqb i j
  | VObject i _, VObject j _ => Nat.eqb i j
  | _, _ => false
  end.

(** lodash predicates used by the adapter. *)
Definition isString (v : value) : bool :=
  match v with VString _ => true | _ => false end.

Definition isRegExp (v : value) : bool :=
  match v with VRegExp _ _ _ => true | _ => false end.

(** [String(v)] for the values of the model. *)
Definition to_string (v : value) : string :=
  match v with
  | VUndefined => "undefined"
  | VNull => "null"
  | VBool true => "true"
  | VBool false => "false"
  | VNumber n => NilZero.string_of_int (Z.to_int n)
  | VNaN => "NaN"
  | VString s => s
  | VRegExp _ source _ => source
  | VObject _ _ => "[object Object]"
  end.

(** [re.test(arg)]: the argument is turned into a string first.  Only
    called on values for which [isRegExp] holds. *)
Definition regexp_test (re arg : value) : bool :=
  match re with VRegExp _ _ test => test (to_string arg) | _ => false end.

(** ** Exceptions and completions *)

Inductive exn : Type :=
| TypeError (message : string)   (* a built-in TypeError; it has no [code] *)
| Thrown (v : value).            (* any other thrown or rejected value *)

Inductive completion (A : Type) : Type :=
| Normal (a : A)
| Throw (e : exn).
Arguments Normal {A} a.
Arguments Throw {A} e.

Definition bind {A B} (c : completion A) (k : A -> completion B) : completion B :=
  match c with
  | Normal a => k a
  | Throw e => Throw e
  end.

Notation "x <- c ;; k" := (bind c (fun x => k))
  (at level 61, c at next level, right associativity).

(** Property read [v.name]: throws on [undefined] and [null], answers
    [undefined] for a property that is not there. *)
Fixpoint lookup (name : string) (props : list (string * value)) : value :=
  match props with
  | [] => VUndefined
  | (k, v) :: rest => if String.eqb k name then v else lookup name rest
  end.

Definition get_prop (v : value) (name : string) : completion value :=
  match v with
  | VUndefined | VNull => Throw (TypeError ("Cannot read property '" ++ name ++ "' of undefined or null"))
  | VObject _ props => Normal (lookup name props)
  | _ => Normal VUndefined
  end.

(** ** Matching constraints *)

(** The canonical constraints object.  Reading an absent property gives
    [undefined], so [callbackId] and [type] are plain values; [unfurl] is
    tested with [in], so its presence is kept apart from its value. *)
Record constraints : Type := {
  callbackId : value;
  type : value;
  unfurl : option value
}.

(** What a registration call may receive as its first argument. *)
Inductive matching_arg : Type :=
| Bare (v : value)            (* anything that is not a plain object *)
| Plain (c : constraints).    (* a plain object, seen through its three properties *)

Definition formatMatchingConstraints (matchingConstraints : matching_arg)
  : completion constraints :=
  match matchingConstraints with
  | Bare VUndefined | Bare VNull =>
      Throw (TypeError "Callback ID cannot be undefined or null")
  | Bare v => Normal {| callbackId := v; type := VUndefined; unfurl := None |}
  | Plain c => Normal c
  end.

(** The validators answer [Some error] or [None] (JavaScript [false]). *)
Definition validateConstraints (matchingConstraints : constraints) : option exn :=
  if truthy (callbackId matchingConstraints) &&
     negb (isString (callbackId matchingConstraints) || isRegExp (callbackId matchingConstraints))
  then Some (TypeError "Callback ID must be a string or RegExp")
  else None.

Definition validateActionConstraints (actionConstraints : constraints) : option exn :=
  if truthy (type actionConstraints) &&
     negb (strict_equal (type actionConstraints) (VString "select") ||
           strict_equal (type actionConstraints) (VString "button") ||
           strict_equal (type actionConstraints) (VString "dialog_submission"))
  then Some (TypeError "Type must be 'select', 'button', or 'dialog_submission'")
  else None.

(** [a || b] on validation results. *)
Definition or_else (a b : option exn) : option exn :=
  match a with Some e => Some e | None => b end.

(** ** Payloads, promises and handlers *)

Record action_item : Type := { action_type : value }.

Record payload : Type := {
  callback_id : value;
  actions : option (list action_item);   (* absent, or an array of objects *)
  response_url : value;
  is_app_unfurl : value;
  payload_type : value                   (* [payload.type] *)
}.

Inductive settlement : Type :=
| Fulfilled (v : value)
| Rejected (reason : exn).

(** A promise, by its observable fate. *)
Inductive promise : Type :=
| Never
| SettlesAt (t : Z) (s : settlement).

(** What a handler may return and what a response may hold as content. *)
Inductive js : Type :=
| Val (v : value)
| Prom (p : promise).

Definition js_truthy (x : js) : bool :=
  match x with Val v => truthy v | Prom _ => true end.

(** What one call of a handler does: the value it returns or what it throws,
    what it does to the application besides (its side effects, in order), and
    the calls of [respond] it makes, during the call or later, each with its
    time and its message. *)
Record run : Type := {
  outcome : completion js;
  effects : list value;
  responds : list (Z * value)
}.

(** A handler receives the payload and [respond]; [respond] is [undefined]
    ([None]) or a function bound to the response URL ([Some url]). *)
Definition handler : Type := payload -> option value -> run.

Inductive callback_arg : Type :=
| Fn (f : handler)
| NotFn (v : value).

(** ** The adapter *)

Record adapter : Type := {
  verificationToken : value;
  syncResponseTimeout : Z;
  lateResponseFallbackEnabled : bool;
  callbacks : list (constraints * handler)
}.

(** The options object, with the types its documentation gives: a number of
    milliseconds and a boolean, each of them optional.  The timeout is taken
    as a whole number; fractions and not-a-number are outside this model. *)
Record adapter_options : Type := {
  opt_syncResponseTimeout : option Z;           (* [None]: property absent *)
  opt_lateResponseFallbackEnabled : option bool
}.

Inductive options_arg : Type :=
| OptsUndefined
| OptsNull
| OptsObject (o : adapter_options).

(** The destructuring parameter [{ syncResponseTimeout = 2500,
    lateResponseFallbackEnabled = true } = {}]. *)
Definition destructure_options (opts : options_arg) : completion (Z * bool) :=
  match opts with
  | OptsUndefined => Normal (2500, true)
  | OptsNull => Throw (TypeError "Cannot destructure 'null'")
  | OptsObject o =>
      Normal (match opt_syncResponseTimeout o with Some n => n | None => 2500 end,
              match opt_lateResponseFallbackEnabled o with Some b => b | None => true end)
  end.

Definition constructor (token : value) (opts : options_arg) : completion adapter :=
  o <- destructure_options opts ;;
  let '(timeout, fallback) := o in
  if negb (isString token) then
    Throw (TypeError "SlackMessageAdapter needs a verification token")
  else if (timeout >? 3000) || (timeout <? 1) then
    Throw (TypeError "syncResponseTimeout must be between 1 and 3000")
  else
    Normal {| verificationToken := token;
              syncResponseTimeout := timeout;
              lateResponseFallbackEnabled := fallback;
              callbacks := [] |}.

(** *** Registration.  A method returns its completion and the adapter as
    the call leaves it. *)

Definition method (A : Type) : Type := adapter -> completion A * adapter.

Definition push_callback (entry : constraints * handler) (a : adapter) : adapter :=
  {| verificationToken := verificationToken a;
     syncResponseTimeout := syncResponseTimeout a;
     lateResponseFallbackEnabled := lateResponseFallbackEnabled a;
     callbacks := callbacks a ++ [entry] |}.

Definition registerCallback (c : constraints) (callback : callback_arg) : method unit :=
  fun a =>
    match callback with
    | NotFn _ => (Throw (TypeError "callback must be a function"), a)
    | Fn f => (Normal tt, push_callback (c, f) a)
    end.

Definition action (matchingConstraints : matching_arg) (callback : callback_arg)
  : method unit :=
  fun a =>
    match formatMatchingConstraints matchingConstraints with
    | Throw e => (Throw e, a)
    | Normal actionConstraints =>
        match or_else (validateConstraints actionConstraints)
                      (validateActionConstraints actionConstraints) with
        | Some error => (Throw error, a)
        | None => registerCallback actionConstraints callback a
        end
    end.

Definition options (matchingConstraints : matching_arg) (callback : callback_arg)
  : method unit :=
  fun a =>
    match formatMatchingConstraints matchingConstraints with
    | Throw e => (Throw e, a)
    | Normal optionsConstraints =>
        match validateConstraints optionsConstraints with
        | Some error => (Throw error, a)
        | None => registerCallback optionsConstraints callback a
        end
    end.

(** ** The matcher *)

(** [payload.actions && payload.actions[0]] *)
Definition first_action (p : payload) : option action_item :=
  match actions p with
  | Some (act :: _) => Some act
  | _ => None
  end.

(** The three eliminating tests of the predicate given to [find]; each
    answers [true] where the source executes [return false]. *)
Definition callbackId_rejects (c : constraints) (p : payload) : bool :=
  if truthy (callbackId c) then
    if isString (callbackId c) && negb (strict_equal (callback_id p) (callbackId c))
    then true
    else if isRegExp (callbackId c) && negb (regexp_test (callbackId c) (callback_id p))
    then true
    else false
  else false.

Definition type_rejects (c : constraints) (act : option action_item) : bool :=
  match act with
  | Some item => truthy (type c) && negb (strict_equal (type c) (action_type item))
  | None => false
  end.

Definition unfurl_rejects (c : constraints) (p : payload) : bool :=
  match unfurl c with
  | Some u =>
      (truthy u && negb (truthy (is_app_unfurl p))) ||
      (negb (truthy u) && truthy (is_app_unfurl p))
  | None => false
  end.

Definition matches (p : payload) (entry : constraints * handler) : bool :=
  let '(c, _) := entry in
  if callbackId_rejects c p then false
  else if type_rejects c (first_action p) then false
  else if unfurl_rejects c p then false
  else true.

Definition matchCallback (a : adapter) (p : payload) : option (constraints * handler) :=
  find (matches p) (callbacks a).

(** ** Dispatch *)

Record response : Type := {
  status : Z;
  content : option js      (* [None]: the result has no [content] property *)
}.

(** A request sent to a response URL by [respond]. *)
Record post : Type := {
  post_at : Z;
  post_url : value;
  post_body : value
}.

(** What a call of [dispatch] does: the result it returns, the side effects
    of the handler calls it makes, and the requests sent to the response URL,
    by the handler through [respond] or by [dispatch] for a late promise. *)
Record dispatched : Type := {
  returned : response;
  performed : list value;
  posted : list post
}.

(** A promise resolved at time [now] with [x]: a promise is followed. *)
Definition resolve_at (now : Z) (x : js) : promise :=
  match x with
  | Val v => SettlesAt now (Fulfilled v)
  | Prom Never => Never
  | Prom (SettlesAt t s) => SettlesAt (Z.max now t) s
  end.

(** [p.catch(onRejected)], with the requests the callback sets off. *)
Definition promise_catch (p : promise)
    (onRejected : Z -> exn -> completion js * list post) : promise * list post :=
  match p with
  | Never => (Never, [])
  | SettlesAt t (Fulfilled v) => (SettlesAt t (Fulfilled v), [])
  | SettlesAt t (Rejected e) =>
      let '(c, posts) := onRejected t e in
      (match c with
       | Normal x => resolve_at t x
       | Throw e' => SettlesAt t (Rejected e')
       end, posts)
  end.

(** [typeof v === 'function']: no value of the model is callable. *)
Definition is_function (v : value) : bool := false.

(** [error.code] *)
Definition error_code (error : exn) : completion value :=
  match error with
  | TypeError _ => Normal VUndefined
  | Thrown v => get_prop v "code"
  end.

(** The [respond] closure built by [dispatch] for [url], called at [now]. *)
Definition respond (url : value) (now : Z) (message : value) : completion post :=
  then_ <- get_prop message "then" ;;
  if is_function then_ then
    Throw (TypeError "Cannot use a Promise as the parameter for respond()")
  else
    Normal {| post_at := now; post_url := url; post_body := message |}.

(** [callbackResult.then(respond).catch(...)] evaluated at [now]: the
    request goes out when the promise fulfils; a failure is logged and thrown
    again, into nothing. *)
Definition deliver_late (callbackResult : js) (url : value) (now : Z)
  : completion (list post) :=
  match callbackResult with
  | Val v =>
      _ <- get_prop v "then" ;;
      Throw (TypeError "callbackResult.then is not a function")
  | Prom Never => Normal []
  | Prom (SettlesAt t (Rejected _)) => Normal []
  | Prom (SettlesAt t (Fulfilled v)) =>
      match respond url (Z.max now t) v with
      | Normal sent => Normal [sent]
      | Throw _ => Normal []
      end
  end.

(** The [respond] argument for a payload: defined when [payload.response_url]
    is truthy. *)
Definition respond_for (p : payload) : option value :=
  if truthy (response_url p) then Some (response_url p) else None.

(** The requests that the handler's own calls of [respond] send: a call
    with a message that [respond] throws on sends none, and without a response
    URL there is no [respond] to call. *)
Definition own_posts (respond_ : option value) (calls : list (Z * value))
  : list post :=
  match respond_ with
  | None => []
  | Some url =>
      flat_map (fun call =>
                  match respond url (fst call) (snd call) with
                  | Normal sent => [sent]
                  | Throw _ => []
                  end) calls
  end.

Definition default_result : response :=
  {| status := 200; content := Some (Val (VString "")) |}.

Definition generic_error : value :=
  VString "An error occurred. Please report this to the app developer.".

Section Dispatch.

(** [errorCodes.PROMISE_TIMEOUT] of [./util], which the adapter imports. *)
Variable PROMISE_TIMEOUT : string.

(** The error the timer of [promiseTimeout] rejects with. *)
Definition timeout_error : exn :=
  Thrown (VObject 0 [("message", VString "Promise timed out");
                     ("code", VString PROMISE_TIMEOUT)]).

(** Modelled from the spec: [promiseTimeout] of [./util] is not part of
    the sources at hand.  It races its argument against a timer of [ms]
    milliseconds, the first to settle wins, and a tie goes to the argument;
    the timer rejects with an error whose [code] is [PROMISE_TIMEOUT], as
    the callback in [dispatch] expects.  An argument that is not a promise
    counts as one already fulfilled. *)
Definition promiseTimeout (ms : Z) (x : js) : promise :=
  match resolve_at 0 x with
  | SettlesAt t s =>
      if t <=? ms then SettlesAt t s else SettlesAt ms (Rejected timeout_error)
  | Never => SettlesAt ms (Rejected timeout_error)
  end.

(** The callback given to [.catch] in [dispatch], run at [now]. *)
Definition on_rejected (a : adapter) (p : payload) (respond_ : option value)
    (callbackResult : js) (now : Z) (error : exn) : completion js * list post :=
  match error_code error with
  | Throw e => (Throw e, [])
  | Normal code =>
      if strict_equal code (VString PROMISE_TIMEOUT) then
        if negb (lateResponseFallbackEnabled a)
           || negb (match respond_ with Some _ => true | None => false end)
           || strict_equal (payload_type p) (VString "dialog_submission")
        then (Normal callbackResult, [])
        else
          match respond_ with
          | None => (Normal callbackResult, [])
          | Some url =>
              match deliver_late callbackResult url now with
              | Throw e => (Throw e, [])
              | Normal posts => (Normal (Val (VString "")), posts)
              end
          end
      else (Normal (Val generic_error), [])
  end.

Definition dispatch (a : adapter) (p : payload) : dispatched :=
  let result := default_result in
  match matchCallback a p with
  | None => {| returned := result; performed := []; posted := [] |}
  | Some (_, callbackFn) =>
      let respond_ := respond_for p in
      let call := callbackFn p respond_ in
      let own := own_posts respond_ (responds call) in
      match outcome call with
      | Throw _ =>
          {| returned := {| status := 500; content := None |};
             performed := effects call; posted := own |}
      | Normal callbackResult =>
          if js_truthy callbackResult then
            let '(contentConsideringTimeout, posts) :=
              promise_catch (promiseTimeout (syncResponseTimeout a) callbackResult)
                            (on_rejected a p respond_ callbackResult) in
            {| returned := {| status := 200;
                              content := Some (Prom contentConsideringTimeout) |};
               performed := effects call; posted := (own ++ posts)%list |}
          else
            {| returned := result; performed := effects call; posted := own |}
      end
  end.

End Dispatch.

(** ** Notions used to state the properties *)

(** The constraints with one property taken away. *)
Definition without_unfurl (c : constraints) : constraints :=
  {| callbackId := callbackId c; type := type c; unfurl := None |}.

Definition without_callbackId (c : constraints) : constraints :=
  {| callbackId := VUndefined; type := type c; unfurl := unfurl c |}.

(** The requests sent by the calls of [respond] that handler [h] makes when
    [dispatch] calls it with payload [p]. *)
Definition handler_posts (h : handler) (p : payload) : list post :=
  own_posts (respond_for p) (responds (h p (respond_for p))).

(** A promise that is still pending when [deadline] has passed. *)
Definition settles_after (deadline : Z) (d : promise) : Prop :=
  match d with
  | Never => True
  | SettlesAt t _ => deadline < t
  end.

Definition without_type (c : constraints) : constraints :=
  {| callbackId := callbackId c; type := VUndefined; unfurl := unfurl c |}.

(** A callback ID the validator lets through: not set, a string or a
    pattern. *)
Definition valid_callbackId (c : constraints) : Prop :=
  truthy (callbackId c) = false
  \/ isString (callbackId c) = true
  \/ isRegExp (callbackId c) = true.

(** ** Sequences of registrations *)

(** One call of a registration method, and the adapter after a series of
    them, each call leaving the adapter as [action] or [options] leaves it,
    whether it returned or threw. *)
Inductive registration : Type :=
| ByAction (matchingConstraints : matching_arg) (callback : callback_arg)
| ByOptions (matchingConstraints : matching_arg) (callback : callback_arg).

Definition register (r : registration) : method unit :=
  match r with
  | ByAction mc cb => action mc cb
  | ByOptions mc cb => options mc cb
  end.

Fixpoint register_all (rs : list registration) (a : adapter) : adapter :=
  match rs with
  | [] => a
  | r :: rest => register_all rest (snd (register r a))
  end.

(** ** Stopping the built-in server *)

(** What [server.close(callback)] does with its callback: it may never call
    it, or call it at some time with its error argument ([undefined] when the
    server closed cleanly). *)
Inductive close_outcome : Type :=
| CallbackNotCalled
| CallbackCalled (at_ : Z) (error : value).

Definition stop_error : exn :=
  Thrown (VObject 0 [("message",
    VString "SlackMessageAdapter cannot stop when it did not start a server")]).

(** [stop()], on the [server] property of the adapter ([None]: no such
    property): the promise it returns and the property afterwards. *)
Definition stop (close : close_outcome) (server : option value)
  : promise * option value :=
  if match server with Some s => truthy s | None => false end then
    match close with
    | CallbackNotCalled => (Never, server)
    | CallbackCalled t error =>
        (SettlesAt t (if truthy error then Rejected (Thrown error)
                      else Fulfilled VUndefined),
         None)
    end
  else (SettlesAt 0 (Rejected stop_error), server).

(** ** Sample data *)

Module Samples.

Definition PT : string := "PROMISE_TIMEOUT".

Definition no_constraint : constraints :=
  {| callbackId := VUndefined; type := VUndefined; unfurl := None |}.

Definition pick_color : constraints :=
  {| callbackId := VString "pick_color"; type := VUndefined; unfurl := None |}.

Definition click : payload :=
  {| callback_id := VString "pick_color";
     actions := Some [ {| action_type := VString "button" |} ];
     response_url := VUndefined;
     is_app_unfurl := VUndefined;
     payload_type := VString "interactive_message" |}.

Definition click_with_url : payload :=
  {| callback_id := VString "pick_color";
     actions := Some [ {| action_type := VString "button" |} ];
     response_url := VString "https://hooks.example/r/1";
     is_app_unfurl := VUndefined;
     payload_type := VString "interactive_message" |}.

Definition dialog : payload :=
  {| callback_id := VString "pick_color";
     actions := None;
     response_url := VString "https://hooks.example/r/1";
     is_app_unfurl := VUndefined;
     payload_type := VString "dialog_submission" |}.

Definition picked_red : value := VObject 1 [("text", VString "picked red")].

(** Handlers that only return or throw. *)
Definition returns (x : js) : handler :=
  fun _ _ => {| outcome := Normal x; effects := []; responds := [] |}.
Definition throws (e : exn) : handler :=
  fun _ _ => {| outcome := Throw e; effects := []; responds := [] |}.

(** A handler that leaves a mark, answers through [respond] at once when it
    has one, and returns [x]. *)
Definition replies (mark : string) (message : value) (x : js) : handler :=
  fun _ respond_ =>
    {| outcome := Normal x;
       effects := [VString mark];
       responds := match respond_ with Some _ => [(0, message)] | None => [] end |}.

(** A handler that answers through [respond] when it has one, and throws. *)
Definition replies_and_throws (message : value) (e : exn) : handler :=
  fun _ respond_ =>
    {| outcome := Throw e;
       effects := [];
       responds := match respond_ with Some _ => [(0, message)] | None => [] end |}.

Definition adapter_with (cbs : list (constraints * handler)) : adapter :=
  {| verificationToken := VString "token";
     syncResponseTimeout := 2500;
     lateResponseFallbackEnabled := true;
     callbacks := cbs |}.

End Samples.

(** * Properties *)

(** ** Checks on the samples *)

Example resolved_before_deadline :
  returned (dispatch Samples.PT
              (Samples.adapter_with
                 [(Samples.pick_color,
                   Samples.returns (Prom (SettlesAt 100 (Fulfilled Samples.picked_red))))])
              Samples.click)
  = {| status := 200;
       content := Some (Prom (SettlesAt 100 (Fulfilled Samples.picked_red))) |}.
Proof. reflexivity. Qed.

Example late_with_fallback :
  let d := dispatch Samples.PT
             (Samples.adapter_with
                [(Samples.pick_color,
                  Samples.returns (Prom (SettlesAt 3000 (Fulfilled Samples.picked_red))))])
             Samples.click_with_url in
  returned d = {| status := 200;
                  content := Some (Prom (SettlesAt 2500 (Fulfilled (VString "")))) |}
  /\ posted d = [ {| post_at := 3000;
                     post_url := VString "https://hooks.example/r/1";
                     post_body := Samples.picked_red |} ].
Proof. split; reflexivity. Qed.

Example late_dialog_submission :
  let d := dispatch Samples.PT
             (Samples.adapter_with
                [(Samples.pick_color,
                  Samples.returns (Prom (SettlesAt 3000 (Fulfilled Samples.picked_red))))])
             Samples.dialog in
  returned d = {| status := 200;
                  content := Some (Prom (SettlesAt 3000 (Fulfilled Samples.picked_red))) |}
  /\ posted d = [].
Proof. split; reflexivity. Qed.

(** The type test is not applied to a payload without actions. *)
Example type_test_needs_an_action :
  let c := {| callbackId := VUndefined; type := VString "select"; unfurl := None |} in
  matches Samples.dialog (c, Samples.returns (Val VNull)) = true
  /\ matches Samples.click (c, Samples.returns (Val VNull)) = false.
Proof. split; reflexivity. Qed.

(** A pattern is tried against the text of [payload.callback_id]. *)
Example pattern_callbackId :
  let starts_with_pick := VRegExp 3 "/^pick_/" (fun s => String.prefix "pick_" s) in
  let c := {| callbackId := starts_with_pick; type := VUndefined; unfurl := None |} in
  matches Samples.click (c, Samples.returns (Val VNull)) = true
  /\ matches {| callback_id := VString "drop_color"; actions := None;
                response_url := VUndefined; is_app_unfurl := VUndefined;
                payload_type := VUndefined |} (c, Samples.returns (Val VNull)) = false.
Proof. split; reflexivity. Qed.

(** Registration order is list order: a successful registration puts its
    entry behind those already there. *)
Lemma registerCallback_appends c f a :
  registerCallback c (Fn f) a = (Normal tt, push_callback (c, f) a)
  /\ callbacks (push_callback (c, f) a) = (callbacks a ++ [(c, f)])%list.
Proof. split; reflexivity. Qed.

Example registered_in_order :
  let first := Samples.replies "first" VNull (Val (VString "first")) in
  let second := Samples.replies "second" VNull (Val (VString "second")) in
  let a1 := snd (action (Bare (VString "pick_color")) (Fn first) (Samples.adapter_with [])) in
  let a2 := snd (options (Plain Samples.no_constraint) (Fn second) a1) in
  callbacks a2 = [(Samples.pick_color, first); (Samples.no_constraint, second)]
  /\ performed (dispatch Samples.PT a2 Samples.click) = [VString "first"].
Proof. split; reflexivity. Qed.

(** A handler that answers through [respond] itself and returns a promise
    that is late: its own request and the late one both go out. *)
Example handler_responds_itself :
  let h := Samples.replies "seen" (VObject 4 [("text", VString "working on it")])
             (Prom (SettlesAt 3000 (Fulfilled Samples.picked_red))) in
  posted (dispatch Samples.PT (Samples.adapter_with [(Samples.pick_color, h)])
            Samples.click_with_url)
  = [ {| post_at := 0; post_url := VString "https://hooks.example/r/1";
         post_body := VObject 4 [("text", VString "working on it")] |};
      {| post_at := 3000; post_url := VString "https://hooks.example/r/1";
         post_body := Samples.picked_red |} ].
Proof. reflexivity. Qed.

(** ** The matcher *)

Section Find.

Context {A : Type} (f : A -> bool).

Lemma find_all_false (l : list A) :
  (forall x, In x l -> f x = false) -> find f l = None.
Proof.
  induction l as [|x l IH]; intros Hall; simpl; [reflexivity|].
  rewrite (Hall x (or_introl eq_refl)).
  apply IH. intros y Hy. apply Hall. now right.
Qed.



End Find.

Lemma dispatch_unmatched PT a p :
  matchCallback a p = None ->
  dispatch PT a p = {| returned := default_result; performed := []; posted := [] |}.
Proof. intros H. unfold dispatch. now rewrite H. Qed.


(** C3: when no registered entry has its constraints satisfied by the
    payload, [dispatch] returns [{status: 200, content: ''}] and calls no
    handler: whatever the registered handlers would do, no side effect of
    theirs takes place and nothing is sent. *)
Theorem dispatch_no_match PT a p :
  (forall entry, In entry (callbacks a) -> matches p entry = false) ->
  returned (dispatch PT a p) = {| status := 200; content := Some (Val (VString "")) |}
  /\ performed (dispatch PT a p) = []
  /\ posted (dispatch PT a p) = [].
Proof.
  intros Hnone.
  assert (Hm : matchCallback a p = None) by (apply find_all_false; exact Hnone).
  rewrite (dispatch_unmatched PT a p Hm). repeat split.
Qed.

Lemma dispatch_no_match_witness :
  let a := Samples.adapter_with
             [( {| callbackId := VString "other"; type := VUndefined; unfurl := None |},
                Samples.replies "never called" Samples.picked_red (Val Samples.picked_red) )] in
  returned (dispatch Samples.PT a Samples.click_with_url)
    = {| status := 200; content := Some (Val (VString "")) |}
  /\ performed (dispatch Samples.PT a Samples.click_with_url) = []
  /\ posted (dispatch Samples.PT a Samples.click_with_url) = [].
Proof.
  intros a. apply (dispatch_no_match Samples.PT a Samples.click_with_url).
  intros entry [<- | []]. reflexivity.
Defined.



Lemma matches_unfold p c h :
  matches p (c, h)
  = negb (callbackId_rejects c p)
    && negb (type_rejects c (first_action p))
    && negb (unfurl_rejects c p).
Proof.
  unfold matches.
  destruct (callbackId_rejects c p), (type_rejects c (first_action p)),
    (unfurl_rejects c p); reflexivity.
Qed.

(** C8: a constraint without [unfurl] passes the unfurl test whatever
    [payload.is_app_unfurl] is; a constraint with [unfurl] set to a boolean
    passes it exactly when that boolean is the truthiness of
    [payload.is_app_unfurl] (a value that is not a boolean counts by its own
    truthiness); and an entry matches exactly when it matches with
    [unfurl] taken away and passes the unfurl test. *)
Theorem unfurl_filter_parity c p h :
  (unfurl c = None -> unfurl_rejects c p = false)
  /\ (forall u, unfurl c = Some u ->
        (unfurl_rejects c p = false <-> truthy u = truthy (is_app_unfurl p)))
  /\ matches p (c, h) = matches p (without_unfurl c, h) && negb (unfurl_rejects c p).
Proof.
  split; [|split].
  - intros H. unfold unfurl_rejects. now rewrite H.
  - intros u H. unfold unfurl_rejects. rewrite H.
    destruct (truthy u), (truthy (is_app_unfurl p)); simpl; split; congruence.
  - rewrite !matches_unfold.
    replace (unfurl_rejects (without_unfurl c) p) with false by reflexivity.
    replace (callbackId_rejects (without_unfurl c) p) with (callbackId_rejects c p)
      by reflexivity.
    replace (type_rejects (without_unfurl c) (first_action p))
      with (type_rejects c (first_action p)) by reflexivity.
    now rewrite andb_true_r.
Qed.

Lemma unfurl_filter_parity_witness :
  let c := {| callbackId := VUndefined; type := VUndefined; unfurl := Some (VBool false) |} in
  let unfurled :=
    {| callback_id := VString "pick_color"; actions := None; response_url := VUndefined;
       is_app_unfurl := VBool true; payload_type := VUndefined |} in
  (unfurl_rejects c Samples.click = false <-> false = truthy (is_app_unfurl Samples.click))
  /\ (unfurl_rejects c unfurled = false <-> false = truthy (is_app_unfurl unfurled))
  /\ unfurl_rejects c Samples.click = false
  /\ unfurl_rejects c unfurled = true
  /\ unfurl_rejects Samples.no_constraint unfurled = false.
Proof.
  intros c unfurled.
  split; [|split; [|split; [|split]]].
  - apply (proj1 (proj2 (unfurl_filter_parity c Samples.click (Samples.returns (Val VNull))))
             (VBool false) eq_refl).
  - apply (proj1 (proj2 (unfurl_filter_parity c unfurled (Samples.returns (Val VNull))))
             (VBool false) eq_refl).
  - reflexivity.
  - reflexivity.
  - apply (proj1 (unfurl_filter_parity Samples.no_constraint unfurled
                    (Samples.returns (Val VNull))) eq_refl).
Defined.

(** C9: a constraint whose [callbackId] is the empty string (or any other
    falsy value) passes the callbackId test whatever [payload.callback_id] is:
    the entry matches exactly as if [callbackId] were absent, and with no
    other constraint it matches every payload. *)
Theorem falsy_callbackId_is_absent c p h :
  truthy (callbackId c) = false ->
  callbackId_rejects c p = false
  /\ matches p (c, h) = matches p (without_callbackId c, h)
  /\ (type c = VUndefined -> unfurl c = None -> matches p (c, h) = true).
Proof.
  intros Hfalsy.
  assert (Hid : callbackId_rejects c p = false)
    by (unfold callbackId_rejects; now rewrite Hfalsy).
  split; [exact Hid|split].
  - rewrite !matches_unfold. rewrite Hid. reflexivity.
  - intros Ht Hu. rewrite matches_unfold, Hid.
    unfold type_rejects, unfurl_rejects. rewrite Ht, Hu.
    now destruct (first_action p).
Qed.

Lemma falsy_callbackId_is_absent_witness :
  let c := {| callbackId := VString ""; type := VUndefined; unfurl := None |} in
  callbackId_rejects c Samples.click = false
  /\ matches Samples.click (c, Samples.returns (Val VNull))
     = matches Samples.click (without_callbackId c, Samples.returns (Val VNull))
  /\ matches Samples.click (c, Samples.returns (Val VNull)) = true.
Proof.
  intros c.
  destruct (falsy_callbackId_is_absent c Samples.click (Samples.returns (Val VNull)) eq_refl)
    as (H1 & H2 & H3).
  split; [exact H1|split; [exact H2|]].
  apply H3; reflexivity.
Defined.

(** ** Construction and registration *)

Lemma strict_equal_string v s :
  strict_equal v (VString s) = true <-> v = VString s.
Proof.
  split.
  - destruct v; simpl; try discriminate. intros H.
    apply String.eqb_eq in H. now subst.
  - intros ->. simpl. apply String.eqb_refl.
Qed.

Lemma strict_equal_string_false v s :
  v <> VString s -> strict_equal v (VString s) = false.
Proof.
  intros H. destruct (strict_equal v (VString s)) eqn:E; [|reflexivity].
  apply strict_equal_string in E. contradiction.
Qed.

(** The action validator on a type that is set and is none of the three. *)
Lemma validateActionConstraints_unknown c :
  truthy (type c) = true ->
  type c <> VString "select" ->
  type c <> VString "button" ->
  type c <> VString "dialog_submission" ->
  validateActionConstraints c
  = Some (TypeError "Type must be 'select', 'button', or 'dialog_submission'").
Proof.
  intros Ht H1 H2 H3. unfold validateActionConstraints.
  rewrite Ht, !strict_equal_string_false by assumption. reflexivity.
Qed.

(** C7, as the code has it: [action] with constraints whose [type] is truthy
    and is none of ['select'], ['button'], ['dialog_submission'] throws a
    TypeError and leaves the adapter, its registry included, as it was.  A
    falsy type (the empty string, 0, [false], [null], ...) is not rejected:
    the type check lets it through, [action] then does what [options] does
    with the same arguments, and with a function as callback and a callback ID
    that is unset, a string or a pattern the entry is stored. *)
Theorem action_rejects_unknown_type a c callback :
  (truthy (type c) = true ->
   type c <> VString "select" ->
   type c <> VString "button" ->
   type c <> VString "dialog_submission" ->
   exists message, action (Plain c) callback a = (Throw (TypeError message), a))
  /\ (truthy (type c) = false ->
      validateActionConstraints c = None
      /\ action (Plain c) callback a = options (Plain c) callback a
      /\ (forall f, callback = Fn f -> valid_callbackId c ->
            action (Plain c) callback a = (Normal tt, push_callback (c, f) a))).
Proof.
  split.
  - intros Ht H1 H2 H3. unfold action. simpl.
    rewrite (validateActionConstraints_unknown c Ht H1 H2 H3).
    unfold validateConstraints.
    destruct (truthy (callbackId c)
              && negb (isString (callbackId c) || isRegExp (callbackId c)));
      simpl; eauto.
  - intros Hfalsy.
    assert (Hnone : validateActionConstraints c = None)
      by (unfold validateActionConstraints; now rewrite Hfalsy).
    split; [exact Hnone|].
    assert (Hsame : action (Plain c) callback a = options (Plain c) callback a).
    { unfold action, options. simpl. rewrite Hnone.
      now destruct (validateConstraints c). }
    split; [exact Hsame|].
    intros f -> Hvalid. rewrite Hsame. unfold options. simpl.
    destruct Hvalid as [Hv | [Hv | Hv]]; unfold validateConstraints;
      rewrite Hv; simpl; rewrite ?andb_false_r, ?orb_true_r; simpl;
      rewrite ?andb_false_r; reflexivity.
Qed.

Lemma action_rejects_unknown_type_witness :
  let menu := {| callbackId := VString "pick_color"; type := VString "menu"; unfurl := None |} in
  let zero := {| callbackId := VString "pick_color"; type := VNumber 0; unfurl := None |} in
  let h := Samples.returns (Val VNull) in
  (exists message,
     action (Plain menu) (Fn h) (Samples.adapter_with [])
     = (Throw (TypeError message), Samples.adapter_with []))
  /\ action (Plain zero) (Fn h) (Samples.adapter_with [])
     = (Normal tt, push_callback (zero, h) (Samples.adapter_with [])).
Proof.
  intros menu zero h. split.
  - apply (proj1 (action_rejects_unknown_type (Samples.adapter_with []) menu (Fn h)));
      [reflexivity | discriminate | discriminate | discriminate].
  - destruct (proj2 (action_rejects_unknown_type (Samples.adapter_with []) zero (Fn h))
                eq_refl) as (_ & _ & Hstored).
    apply (Hstored h eq_refl). right; left; reflexivity.
Defined.

(** C7 as stated fails: the empty string is a type outside the three allowed
    ones, and [action] accepts it and stores the entry. *)
Lemma action_accepts_empty_type :
  let c := {| callbackId := VString "pick_color"; type := VString ""; unfurl := None |} in
  let h := Samples.returns (Val VNull) in
  type c <> VString "select" /\ type c <> VString "button"
  /\ type c <> VString "dialog_submission"
  /\ action (Plain c) (Fn h) (Samples.adapter_with [])
     = (Normal tt, Samples.adapter_with [(c, h)]).
Proof.
  intros c h. repeat split; discriminate.
Qed.

(** C10: whatever the options, construction with a token that is not a
    string throws a TypeError; with an options object it is the token's
    error, also when the timeout is out of range; an adapter that is
    constructed holds the token it was given and an empty registry; and
    construction succeeds for a string token and a timeout from 1 to 3000. *)
Theorem constructor_checks_token_first token opts :
  (isString token = false ->
     (exists message, constructor token opts = Throw (TypeError message))
     /\ (opts <> OptsNull ->
         constructor token opts
         = Throw (TypeError "SlackMessageAdapter needs a verification token")))
  /\ (forall a, constructor token opts = Normal a ->
        isString token = true /\ verificationToken a = token /\ callbacks a = []
        /\ 1 <= syncResponseTimeout a <= 3000)
  /\ (forall timeout fallback,
        isString token = true ->
        destructure_options opts = Normal (timeout, fallback) ->
        1 <= timeout <= 3000 ->
        constructor token opts
        = Normal {| verificationToken := token;
                    syncResponseTimeout := timeout;
                    lateResponseFallbackEnabled := fallback;
                    callbacks := [] |}).
Proof.
  split; [|split].
  2: {
    intros a. unfold constructor.
    destruct (destructure_options opts) as [[timeout fallback]|e]; simpl; [|discriminate].
    destruct (isString token); simpl; [|discriminate].
    destruct (timeout >? 3000) eqn:Hhi; simpl; [discriminate|].
    destruct (timeout <? 1) eqn:Hlo; simpl; [discriminate|].
    intros H. injection H as <-. simpl. repeat split; lia. }
  2: {
    intros timeout fallback Htok Hopts Hrange. unfold constructor.
    rewrite Hopts. simpl. rewrite Htok. simpl.
    replace (timeout >? 3000) with false by lia.
    replace (timeout <? 1) with false by lia.
    reflexivity. }
  - intros Htok. unfold constructor.
    destruct opts as [| |o]; simpl; rewrite ?Htok; simpl.
    + split; eauto.
    + split; [eauto|]. intros H; now elim H.
    + split; eauto.
Qed.

Lemma constructor_checks_token_first_witness :
  let bad := OptsObject {| opt_syncResponseTimeout := Some 0;
                           opt_lateResponseFallbackEnabled := None |} in
  constructor (VNumber 42) bad
    = Throw (TypeError "SlackMessageAdapter needs a verification token")
  /\ constructor (VString "token") bad
    = Throw (TypeError "syncResponseTimeout must be between 1 and 3000")
  /\ constructor (VString "token") OptsUndefined = Normal (Samples.adapter_with [])
  /\ verificationToken (Samples.adapter_with []) = VString "token"
  /\ callbacks (Samples.adapter_with []) = [].
Proof.
  intros bad.
  split; [|split; [|split]].
  - apply (proj1 (constructor_checks_token_first (VNumber 42) bad) eq_refl).
    discriminate.
  - reflexivity.
  - apply (proj2 (proj2 (constructor_checks_token_first (VString "token") OptsUndefined))
             2500 true eq_refl eq_refl).
    lia.
  - destruct (proj1 (proj2 (constructor_checks_token_first (VString "token") OptsUndefined))
                (Samples.adapter_with []) eq_refl) as (_ & H1 & H2 & _).
    split; assumption.
Defined.

(** ** The response race of dispatch *)

Section Race.

Variable PT : string.

Lemma timeout_error_code :
  error_code (timeout_error PT) = Normal (VString PT).
Proof. reflexivity. Qed.

Lemma strict_equal_code_refl : strict_equal (VString PT) (VString PT) = true.
Proof. simpl. apply String.eqb_refl. Qed.

(** The race is lost by a promise that settles after the deadline. *)
Lemma promiseTimeout_late ms d :
  settles_after ms d ->
  promiseTimeout PT ms (Prom d) = SettlesAt ms (Rejected (timeout_error PT)).
Proof.
  intros Hlate. unfold promiseTimeout.
  destruct d as [|t s]; simpl; [reflexivity|].
  simpl in Hlate. replace (Z.max 0 t <=? ms) with false by lia. reflexivity.
Qed.

(** The race is won by a promise that settles by the deadline. *)
Lemma promiseTimeout_early ms t s :
  0 <= t <= ms ->
  promiseTimeout PT ms (Prom (SettlesAt t s)) = SettlesAt t s.
Proof.
  intros Ht. unfold promiseTimeout. simpl.
  replace (Z.max 0 t) with t by lia.
  replace (t <=? ms) with true by lia. reflexivity.
Qed.

Lemma resolve_at_late now d :
  settles_after now d -> resolve_at now (Prom d) = d.
Proof.
  destruct d as [|t s]; simpl; [reflexivity|].
  intros H. now replace (Z.max now t) with t by lia.
Qed.

(** [dispatch] once the handler has returned something truthy. *)
Lemma dispatch_truthy a p c h x :
  matchCallback a p = Some (c, h) ->
  outcome (h p (respond_for p)) = Normal x ->
  js_truthy x = true ->
  returned (dispatch PT a p)
  = {| status := 200;
       content := Some (Prom (fst (promise_catch
                                     (promiseTimeout PT (syncResponseTimeout a) x)
                                     (on_rejected PT a p (respond_for p) x)))) |}
  /\ posted (dispatch PT a p)
     = (handler_posts h p
        ++ snd (promise_catch (promiseTimeout PT (syncResponseTimeout a) x)
                              (on_rejected PT a p (respond_for p) x)))%list.
Proof.
  intros Hm Hh Hx. unfold dispatch. rewrite Hm. cbv zeta. rewrite Hh, Hx.
  now destruct (promise_catch _ _).
Qed.

(** The late delivery never throws for a promise. *)
Lemma deliver_late_promise d url now :
  exists posts, deliver_late (Prom d) url now = Normal posts.
Proof.
  destruct d as [|t [v|e]]; simpl; eauto.
  destruct (respond url (Z.max now t) v); eauto.
Qed.

Lemma respond_sends url now v :
  v <> VUndefined -> v <> VNull ->
  respond url now v = Normal {| post_at := now; post_url := url; post_body := v |}.
Proof. intros H1 H2. destruct v; try reflexivity; contradiction. Qed.

End Race.

(** C1, as the code has it: the matched handler returns a promise that has
    not settled when [syncResponseTimeout] milliseconds have passed.  If
    [lateResponseFallbackEnabled] is true, [payload.response_url] is set (truthy,
    so that [respond] exists) and [payload.type] is not ['dialog_submission'],
    the content is fulfilled with the empty string at the deadline, at status
    200, and a value the promise fulfils with later is sent through [respond]
    to the response URL, provided it is neither [undefined] nor [null].
    Otherwise the content is the handler's promise, settling when and as it
    settles, and [dispatch] sends nothing of its own.  In both cases the
    requests of the handler's own calls of [respond] go out as well. *)
Theorem dispatch_after_timeout PT a p c h d :
  matchCallback a p = Some (c, h) ->
  outcome (h p (respond_for p)) = Normal (Prom d) ->
  settles_after (syncResponseTimeout a) d ->
  (lateResponseFallbackEnabled a = true ->
   truthy (response_url p) = true ->
   payload_type p <> VString "dialog_submission" ->
     returned (dispatch PT a p)
     = {| status := 200;
          content := Some (Prom (SettlesAt (syncResponseTimeout a)
                                           (Fulfilled (VString "")))) |}
     /\ (forall t v, d = SettlesAt t (Fulfilled v) -> v <> VUndefined -> v <> VNull ->
           posted (dispatch PT a p)
           = (handler_posts h p
              ++ [ {| post_at := t; post_url := response_url p; post_body := v |} ])%list))
  /\ (lateResponseFallbackEnabled a = false \/ truthy (response_url p) = false
      \/ payload_type p = VString "dialog_submission" ->
     returned (dispatch PT a p) = {| status := 200; content := Some (Prom d) |}
     /\ posted (dispatch PT a p) = handler_posts h p).
Proof.
  intros Hm Hh Hlate.
  destruct (dispatch_truthy PT a p c h (Prom d) Hm Hh eq_refl) as [Hret Hpost].
  rewrite Hret, Hpost. clear Hret Hpost.
  rewrite (promiseTimeout_late PT _ d Hlate).
  unfold promise_catch, on_rejected.
  rewrite timeout_error_code, strict_equal_code_refl.
  split.
  - intros Hen Hurl Hty.
    unfold respond_for. rewrite Hen, Hurl.
    rewrite (strict_equal_string_false _ _ Hty). cbn [negb orb].
    split.
    + destruct (deliver_late_promise d (response_url p) (syncResponseTimeout a))
        as [posts ->]. reflexivity.
    + intros t v -> Hv1 Hv2. cbn [deliver_late]. simpl in Hlate.
      rewrite (respond_sends _ _ v Hv1 Hv2).
      cbn [snd]. now replace (Z.max (syncResponseTimeout a) t) with t by lia.
  - intros Hin.
    assert (Hguard :
      negb (lateResponseFallbackEnabled a)
      || negb (match respond_for p with Some _ => true | None => false end)
      || strict_equal (payload_type p) (VString "dialog_submission") = true).
    { unfold respond_for. destruct Hin as [-> | [-> | ->]].
      - reflexivity.
      - now rewrite orb_true_r.
      - rewrite (proj2 (strict_equal_string _ _) eq_refl). now rewrite orb_true_r. }
    rewrite Hguard. cbn [fst snd].
    now rewrite (resolve_at_late _ d Hlate), app_nil_r.
Qed.

Lemma dispatch_after_timeout_witness :
  let late := SettlesAt 3000 (Fulfilled Samples.picked_red) in
  let h := Samples.replies "seen" (VString "on it") (Prom late) in
  let a := Samples.adapter_with [(Samples.pick_color, h)] in
  let own := {| post_at := 0; post_url := VString "https://hooks.example/r/1";
                post_body := VString "on it" |} in
  (returned (dispatch Samples.PT a Samples.click_with_url)
   = {| status := 200; content := Some (Prom (SettlesAt 2500 (Fulfilled (VString "")))) |}
   /\ posted (dispatch Samples.PT a Samples.click_with_url)
      = [ own;
          {| post_at := 3000; post_url := VString "https://hooks.example/r/1";
             post_body := Samples.picked_red |} ])
  /\ (returned (dispatch Samples.PT a Samples.dialog)
      = {| status := 200; content := Some (Prom late) |}
      /\ posted (dispatch Samples.PT a Samples.dialog) = [own]).
Proof.
  intros late h a own. split.
  - destruct (dispatch_after_timeout Samples.PT a Samples.click_with_url
                Samples.pick_color h late eq_refl eq_refl) as [Hyes _]; [simpl; lia|].
    destruct Hyes as [Hret Hpost]; [reflexivity | reflexivity | discriminate |].
    split; [exact Hret|].
    apply (Hpost 3000 Samples.picked_red eq_refl); discriminate.
  - destruct (dispatch_after_timeout Samples.PT a Samples.dialog
                Samples.pick_color h late eq_refl eq_refl) as [_ Hno]; [simpl; lia|].
    apply Hno. right; right; reflexivity.
Defined.

(** C1 as stated fails on the delivery: the promise fulfils late with
    [undefined], in the fallback case; the result is the empty content at the
    deadline, but the value is not sent: [respond] throws on it before any
    request is made, and nothing goes to the response URL. *)
Lemma late_undefined_is_not_sent :
  let late := SettlesAt 3000 (Fulfilled VUndefined) in
  let h := Samples.returns (Prom late) in
  let a := Samples.adapter_with [(Samples.pick_color, h)] in
  matchCallback a Samples.click_with_url = Some (Samples.pick_color, h)
  /\ outcome (h Samples.click_with_url (respond_for Samples.click_with_url))
     = Normal (Prom late)
  /\ lateResponseFallbackEnabled a = true
  /\ truthy (response_url Samples.click_with_url) = true
  /\ payload_type Samples.click_with_url <> VString "dialog_submission"
  /\ returned (dispatch Samples.PT a Samples.click_with_url)
     = {| status := 200; content := Some (Prom (SettlesAt 2500 (Fulfilled (VString "")))) |}
  /\ posted (dispatch Samples.PT a Samples.click_with_url) = [].
Proof.
  intros late h a.
  split; [reflexivity|split; [reflexivity|split; [reflexivity|split; [reflexivity|]]]].
  split; [discriminate|split; reflexivity].
Qed.

(** C4: a matched handler that throws makes [dispatch] return
    [{status: 500}], a result without [content], whatever the timeout and
    whether or not the payload has a response URL; [dispatch] sends nothing of
    its own: the requests are those the handler made before it threw. *)
Theorem dispatch_sync_throw PT a p c h e :
  matchCallback a p = Some (c, h) ->
  outcome (h p (respond_for p)) = Throw e ->
  returned (dispatch PT a p) = {| status := 500; content := None |}
  /\ posted (dispatch PT a p) = handler_posts h p.
Proof.
  intros Hm Hh. unfold dispatch. rewrite Hm. cbv zeta. rewrite Hh.
  split; reflexivity.
Qed.

Lemma dispatch_sync_throw_witness :
  let h := Samples.replies_and_throws (VString "on it") (TypeError "boom") in
  let a := Samples.adapter_with [(Samples.pick_color, h)] in
  (returned (dispatch Samples.PT a Samples.click) = {| status := 500; content := None |}
   /\ posted (dispatch Samples.PT a Samples.click) = [])
  /\ (returned (dispatch Samples.PT a Samples.click_with_url)
      = {| status := 500; content := None |}
      /\ posted (dispatch Samples.PT a Samples.click_with_url)
         = [ {| post_at := 0; post_url := VString "https://hooks.example/r/1";
                post_body := VString "on it" |} ]).
Proof.
  intros h a. split.
  - apply (dispatch_sync_throw Samples.PT a Samples.click Samples.pick_color
             h (TypeError "boom")); reflexivity.
  - apply (dispatch_sync_throw Samples.PT a Samples.click_with_url Samples.pick_color
             h (TypeError "boom")); reflexivity.
Defined.

(** C2, as the code has it: a concrete value returned by the matched handler
    is left aside only when it is falsy, and [dispatch] then returns
    [{status: 200, content: ''}]; a truthy concrete value takes the path of a
    promise and becomes the content, already fulfilled, at status 200.  Either
    way [dispatch] sends nothing of its own. *)
Theorem dispatch_sync_value PT a p c h v :
  matchCallback a p = Some (c, h) ->
  outcome (h p (respond_for p)) = Normal (Val v) ->
  (truthy v = false ->
     dispatch PT a p
     = {| returned := default_result;
          performed := effects (h p (respond_for p));
          posted := handler_posts h p |})
  /\ (truthy v = true -> 0 <= syncResponseTimeout a ->
        returned (dispatch PT a p)
        = {| status := 200; content := Some (Prom (SettlesAt 0 (Fulfilled v))) |}
        /\ posted (dispatch PT a p) = handler_posts h p).
Proof.
  intros Hm Hh. split.
  - intros Hv. unfold dispatch. rewrite Hm. cbv zeta. rewrite Hh. simpl.
    now rewrite Hv.
  - intros Hv Hms.
    destruct (dispatch_truthy PT a p c h (Val v) Hm Hh Hv) as [-> ->].
    unfold promiseTimeout. cbn [resolve_at].
    replace (0 <=? syncResponseTimeout a) with true by lia.
    split; [reflexivity|apply app_nil_r].
Qed.

Lemma dispatch_sync_value_witness :
  let quiet := Samples.returns (Val VUndefined) in
  let loud := Samples.returns (Val Samples.picked_red) in
  dispatch Samples.PT (Samples.adapter_with [(Samples.pick_color, quiet)]) Samples.click
  = {| returned := default_result; performed := []; posted := [] |}
  /\ returned (dispatch Samples.PT (Samples.adapter_with [(Samples.pick_color, loud)])
                 Samples.click)
     = {| status := 200; content := Some (Prom (SettlesAt 0 (Fulfilled Samples.picked_red))) |}.
Proof.
  intros quiet loud. split.
  - apply (proj1 (dispatch_sync_value Samples.PT
                    (Samples.adapter_with [(Samples.pick_color, quiet)]) Samples.click
                    Samples.pick_color quiet VUndefined eq_refl eq_refl) eq_refl).
  - apply (proj2 (dispatch_sync_value Samples.PT
                    (Samples.adapter_with [(Samples.pick_color, loud)]) Samples.click
                    Samples.pick_color loud Samples.picked_red eq_refl eq_refl) eq_refl).
    simpl; lia.
Defined.

(** C2 as stated fails: the handler returns an object, not a promise, and
    the result is not the default one: its content is that object. *)
Lemma sync_object_is_not_ignored :
  let h := Samples.returns (Val Samples.picked_red) in
  let a := Samples.adapter_with [(Samples.pick_color, h)] in
  matchCallback a Samples.click = Some (Samples.pick_color, h)
  /\ outcome (h Samples.click (respond_for Samples.click)) = Normal (Val Samples.picked_red)
  /\ returned (dispatch Samples.PT a Samples.click)
     = {| status := 200; content := Some (Prom (SettlesAt 0 (Fulfilled Samples.picked_red))) |}
  /\ returned (dispatch Samples.PT a Samples.click)
     <> {| status := 200; content := Some (Val (VString "")) |}.
Proof.
  intros h a. repeat split. discriminate.
Qed.

(** The status once the handler has returned, whatever it returned. *)
Lemma dispatch_returned_status PT a p c h x :
  matchCallback a p = Some (c, h) ->
  outcome (h p (respond_for p)) = Normal x ->
  status (returned (dispatch PT a p)) = 200.
Proof.
  intros Hm Hh. unfold dispatch. rewrite Hm. cbv zeta. rewrite Hh.
  destruct (js_truthy x); [|reflexivity].
  now destruct (promise_catch _ _).
Qed.

(** C6, as the code has it: the matched handler returns a promise that
    rejects before the deadline.  The status is 200.  When the [code] of the
    rejection reason can be read and is not the timeout code, the content is
    fulfilled, at the time of the rejection, with the fixed error text, and
    [dispatch] sends nothing of its own. *)
Theorem dispatch_early_rejection PT a p c h t reason :
  matchCallback a p = Some (c, h) ->
  outcome (h p (respond_for p)) = Normal (Prom (SettlesAt t (Rejected reason))) ->
  0 <= t < syncResponseTimeout a ->
  status (returned (dispatch PT a p)) = 200
  /\ (forall code,
        error_code reason = Normal code ->
        code <> VString PT ->
        returned (dispatch PT a p)
        = {| status := 200;
             content := Some (Prom (SettlesAt t (Fulfilled
               (VString "An error occurred. Please report this to the app developer.")))) |}
        /\ posted (dispatch PT a p) = handler_posts h p).
Proof.
  intros Hm Hh Ht. split.
  - apply (dispatch_returned_status PT a p c h _ Hm Hh).
  - intros code Hcode Hne.
    destruct (dispatch_truthy PT a p c h _ Hm Hh eq_refl) as [-> ->].
    rewrite promiseTimeout_early by lia.
    unfold promise_catch, on_rejected.
    rewrite Hcode, (strict_equal_string_false _ _ Hne).
    split; [reflexivity|apply app_nil_r].
Qed.

Lemma dispatch_early_rejection_witness :
  let failure := Thrown (VObject 2 [("message", VString "database down")]) in
  let a := Samples.adapter_with
             [(Samples.pick_color, Samples.returns (Prom (SettlesAt 100 (Rejected failure))))] in
  status (returned (dispatch Samples.PT a Samples.click_with_url)) = 200
  /\ returned (dispatch Samples.PT a Samples.click_with_url)
     = {| status := 200;
          content := Some (Prom (SettlesAt 100 (Fulfilled
            (VString "An error occurred. Please report this to the app developer.")))) |}
  /\ posted (dispatch Samples.PT a Samples.click_with_url) = [].
Proof.
  intros failure a.
  destruct (dispatch_early_rejection Samples.PT a Samples.click_with_url Samples.pick_color
              (Samples.returns (Prom (SettlesAt 100 (Rejected failure)))) 100 failure
              eq_refl eq_refl) as [Hstatus Hcontent]; [simpl; lia|].
  split; [exact Hstatus|].
  apply (Hcontent VUndefined eq_refl). discriminate.
Defined.

(** C6 as stated fails: the handler's promise rejects after 100 ms, well
    before the deadline of 2500 ms, with an error that carries the timeout
    code.  The callback takes it for a timeout and, without a response URL,
    gives the handler's promise back: the content rejects with the handler's
    error and never holds the fixed error text. *)
Lemma early_rejection_taken_for_timeout :
  let failure :=
    Thrown (VObject 2 [("message", VString "inner step timed out");
                       ("code", VString Samples.PT)]) in
  let h := Samples.returns (Prom (SettlesAt 100 (Rejected failure))) in
  let a := Samples.adapter_with [(Samples.pick_color, h)] in
  matchCallback a Samples.click = Some (Samples.pick_color, h)
  /\ outcome (h Samples.click (respond_for Samples.click))
     = Normal (Prom (SettlesAt 100 (Rejected failure)))
  /\ 100 < syncResponseTimeout a
  /\ returned (dispatch Samples.PT a Samples.click)
     = {| status := 200; content := Some (Prom (SettlesAt 100 (Rejected failure))) |}
  /\ (forall t, content (returned (dispatch Samples.PT a Samples.click))
                <> Some (Prom (SettlesAt t (Fulfilled generic_error)))).
Proof.
  intros failure h a. repeat split. intros t. discriminate.
Qed.

(** A rejection without a reason: reading [error.code] throws inside the
    callback, and the content rejects with that TypeError. *)
Example rejection_without_reason :
  returned (dispatch Samples.PT
              (Samples.adapter_with
                 [(Samples.pick_color,
                   Samples.returns (Prom (SettlesAt 100 (Rejected (Thrown VUndefined)))))])
              Samples.click)
  = {| status := 200;
       content := Some (Prom (SettlesAt 100 (Rejected
         (TypeError "Cannot read property 'code' of undefined or null")))) |}.
Proof. reflexivity. Qed.

(** * Further properties *)

(** ** Registration *)

Lemma validateConstraints_none c :
  validateConstraints c = None <-> valid_callbackId c.
Proof.
  unfold validateConstraints, valid_callbackId.
  destruct (truthy (callbackId c)), (isString (callbackId c)),
    (isRegExp (callbackId c)); simpl; split; intros H;
    try reflexivity; try discriminate; auto;
    destruct H as [H | [H | H]]; discriminate.
Qed.

Lemma validateConstraints_message c e :
  validateConstraints c = Some e ->
  e = TypeError "Callback ID must be a string or RegExp".
Proof.
  unfold validateConstraints.
  destruct (_ && _); intros H; [now injection H as <-|discriminate].
Qed.

Lemma validateActionConstraints_message c e :
  validateActionConstraints c = Some e ->
  e = TypeError "Type must be 'select', 'button', or 'dialog_submission'".
Proof.
  unfold validateActionConstraints.
  destruct (_ && _); intros H; [now injection H as <-|discriminate].
Qed.

Lemma formatMatchingConstraints_throws mc e :
  formatMatchingConstraints mc = Throw e ->
  e = TypeError "Callback ID cannot be undefined or null".
Proof.
  destruct mc as [v|c]; [|discriminate].
  destruct v; simpl; intros H; try discriminate; now injection H as <-.
Qed.

(** A call of [action] either throws a TypeError and leaves the adapter, or
    stores the checked constraints with the callback. *)
Lemma action_cases mc cb a :
  (exists message, action mc cb a = (Throw (TypeError message), a))
  \/ (exists c h,
        formatMatchingConstraints mc = Normal c /\ cb = Fn h
        /\ validateConstraints c = None /\ validateActionConstraints c = None
        /\ action mc cb a = (Normal tt, push_callback (c, h) a)).
Proof.
  unfold action.
  destruct (formatMatchingConstraints mc) as [c|e] eqn:Hf.
  - destruct (validateConstraints c) as [e1|] eqn:Hv; simpl.
    + left. rewrite (validateConstraints_message c e1 Hv). eauto.
    + destruct (validateActionConstraints c) as [e2|] eqn:Hva.
      * left. rewrite (validateActionConstraints_message c e2 Hva). eauto.
      * destruct cb as [h|v]; simpl.
        -- right. exists c, h. repeat split; assumption.
        -- left. eauto.
  - left. rewrite (formatMatchingConstraints_throws mc e Hf). eauto.
Qed.

Lemma options_cases mc cb a :
  (exists message, options mc cb a = (Throw (TypeError message), a))
  \/ (exists c h,
        formatMatchingConstraints mc = Normal c /\ cb = Fn h
        /\ validateConstraints c = None
        /\ options mc cb a = (Normal tt, push_callback (c, h) a)).
Proof.
  unfold options.
  destruct (formatMatchingConstraints mc) as [c|e] eqn:Hf.
  - destruct (validateConstraints c) as [e1|] eqn:Hv; simpl.
    + left. rewrite (validateConstraints_message c e1 Hv). eauto.
    + destruct cb as [h|v]; simpl.
      * right. exists c, h. repeat split; assumption.
      * left. eauto.
  - left. rewrite (formatMatchingConstraints_throws mc e Hf). eauto.
Qed.

Lemma register_cases r a :
  (exists message, register r a = (Throw (TypeError message), a))
  \/ (exists c h, valid_callbackId c
                  /\ register r a = (Normal tt, push_callback (c, h) a)).
Proof.
  destruct r as [mc cb|mc cb]; simpl.
  - destruct (action_cases mc cb a) as [H | (c & h & _ & _ & Hv & _ & H)]; auto.
    right. exists c, h. split; [now apply validateConstraints_none|exact H].
  - destruct (options_cases mc cb a) as [H | (c & h & _ & _ & Hv & H)]; auto.
    right. exists c, h. split; [now apply validateConstraints_none|exact H].
Qed.

(** X1: a registration through [action] or [options] that throws leaves the
    adapter exactly as it was, and what it throws is a TypeError. *)
Theorem failed_registration_changes_nothing r a e a' :
  register r a = (Throw e, a') ->
  a' = a /\ exists message, e = TypeError message.
Proof.
  intros H.
  destruct (register_cases r a) as [(msg & Hr) | (c & h & _ & Hr)];
    rewrite Hr in H.
  - injection H as <- <-. eauto.
  - discriminate.
Qed.

Lemma failed_registration_changes_nothing_witness :
  let a := Samples.adapter_with
             [(Samples.pick_color, Samples.returns (Val VNull))] in
  snd (register (ByOptions (Bare (VNumber 7)) (Fn (Samples.returns (Val VNull)))) a) = a
  /\ exists message,
       TypeError "Callback ID must be a string or RegExp" = TypeError message.
Proof.
  intros a.
  apply (failed_registration_changes_nothing
           (ByOptions (Bare (VNumber 7)) (Fn (Samples.returns (Val VNull)))) a
           (TypeError "Callback ID must be a string or RegExp")).
  reflexivity.
Defined.

(** X2: a registration that returns has put exactly one entry at the end of
    the registry; the entries before it, the token, the timeout and the
    fallback switch are what they were, and the stored callback ID is unset,
    a string or a pattern. *)
Theorem registration_appends_one_entry r a a' :
  register r a = (Normal tt, a') ->
  exists c h,
    callbacks a' = (callbacks a ++ [(c, h)])%list
    /\ valid_callbackId c
    /\ verificationToken a' = verificationToken a
    /\ syncResponseTimeout a' = syncResponseTimeout a
    /\ lateResponseFallbackEnabled a' = lateResponseFallbackEnabled a.
Proof.
  intros H.
  destruct (register_cases r a) as [(msg & Hr) | (c & h & Hv & Hr)];
    rewrite Hr in H; [discriminate|].
  injection H as <-. exists c, h. repeat split. exact Hv.
Qed.

Lemma registration_appends_one_entry_witness :
  let h := Samples.returns (Val VNull) in
  let a := Samples.adapter_with [(Samples.no_constraint, h)] in
  exists c h',
    callbacks (snd (register (ByAction (Bare (VString "pick_color")) (Fn h)) a))
    = (callbacks a ++ [(c, h')])%list
    /\ valid_callbackId c
    /\ verificationToken (snd (register (ByAction (Bare (VString "pick_color")) (Fn h)) a))
       = verificationToken a
    /\ syncResponseTimeout (snd (register (ByAction (Bare (VString "pick_color")) (Fn h)) a))
       = syncResponseTimeout a
    /\ lateResponseFallbackEnabled
         (snd (register (ByAction (Bare (VString "pick_color")) (Fn h)) a))
       = lateResponseFallbackEnabled a.
Proof.
  intros h a.
  apply (registration_appends_one_entry
           (ByAction (Bare (VString "pick_color")) (Fn h)) a).
  reflexivity.
Defined.

(** X3: with a callback that is not a function, [action] and [options]
    throw a TypeError and store nothing, whatever the constraints; when the
    constraints pass their checks the error is the one of
    [registerCallback]. *)
Theorem callback_must_be_a_function mc v a :
  (exists message, action mc (NotFn v) a = (Throw (TypeError message), a))
  /\ (exists message, options mc (NotFn v) a = (Throw (TypeError message), a))
  /\ (forall c, formatMatchingConstraints mc = Normal c ->
        validateConstraints c = None ->
        options mc (NotFn v) a = (Throw (TypeError "callback must be a function"), a)
        /\ (validateActionConstraints c = None ->
            action mc (NotFn v) a
            = (Throw (TypeError "callback must be a function"), a))).
Proof.
  split; [|split].
  - destruct (action_cases mc (NotFn v) a) as [H | (c & h & _ & Hcb & _)];
      [exact H|discriminate].
  - destruct (options_cases mc (NotFn v) a) as [H | (c & h & _ & Hcb & _)];
      [exact H|discriminate].
  - intros c Hf Hv. unfold options, action. rewrite Hf, Hv. simpl.
    split; [reflexivity|]. now intros ->.
Qed.

Lemma callback_must_be_a_function_witness :
  options (Bare (VString "pick_color")) (NotFn (VString "not a function"))
          (Samples.adapter_with [])
  = (Throw (TypeError "callback must be a function"), Samples.adapter_with []).
Proof.
  apply (proj1 (proj2 (proj2 (callback_must_be_a_function
                                (Bare (VString "pick_color"))
                                (VString "not a function")
                                (Samples.adapter_with [])))
                  Samples.pick_color eq_refl eq_refl)).
Defined.

(** X4: constraints whose callback ID is set but is neither a string nor a
    pattern are refused by [action] and by [options] with the callback ID
    error, whatever the type, the unfurl flag and the callback are; nothing is
    stored. *)
Theorem invalid_callbackId_is_refused mc c cb a :
  formatMatchingConstraints mc = Normal c ->
  truthy (callbackId c) = true ->
  isString (callbackId c) = false ->
  isRegExp (callbackId c) = false ->
  action mc cb a = (Throw (TypeError "Callback ID must be a string or RegExp"), a)
  /\ options mc cb a = (Throw (TypeError "Callback ID must be a string or RegExp"), a).
Proof.
  intros Hf Ht Hs Hr.
  assert (Hv : validateConstraints c
               = Some (TypeError "Callback ID must be a string or RegExp"))
    by (unfold validateConstraints; now rewrite Ht, Hs, Hr).
  unfold action, options. rewrite Hf, Hv. split; reflexivity.
Qed.

Lemma invalid_callbackId_is_refused_witness :
  let c := {| callbackId := VNumber 7; type := VString "menu"; unfurl := None |} in
  action (Plain c) (NotFn VNull) (Samples.adapter_with [])
  = (Throw (TypeError "Callback ID must be a string or RegExp"), Samples.adapter_with [])
  /\ options (Plain c) (NotFn VNull) (Samples.adapter_with [])
     = (Throw (TypeError "Callback ID must be a string or RegExp"), Samples.adapter_with []).
Proof.
  intros c.
  apply (invalid_callbackId_is_refused (Plain c) c (NotFn VNull) (Samples.adapter_with []));
    reflexivity.
Defined.

(** X5: a first argument that is not a plain object stands for the
    constraints that have it as callback ID and nothing else: [undefined] and
    [null] are refused with their own error before the callback is looked at,
    and any other value behaves, in [action] and in [options], as the object
    [{callbackId: v}]. *)
Theorem bare_argument_is_the_callbackId v cb a :
  ((v = VUndefined \/ v = VNull) ->
     action (Bare v) cb a
     = (Throw (TypeError "Callback ID cannot be undefined or null"), a)
     /\ options (Bare v) cb a
        = (Throw (TypeError "Callback ID cannot be undefined or null"), a))
  /\ (v <> VUndefined -> v <> VNull ->
      action (Bare v) cb a
      = action (Plain {| callbackId := v; type := VUndefined; unfurl := None |}) cb a
      /\ options (Bare v) cb a
         = options (Plain {| callbackId := v; type := VUndefined; unfurl := None |}) cb a).
Proof.
  split.
  - intros [-> | ->]; split; reflexivity.
  - intros H1 H2. unfold action, options.
    destruct v; try contradiction; split; reflexivity.
Qed.

Lemma bare_argument_is_the_callbackId_witness :
  let h := Samples.returns (Val VNull) in
  action (Bare VNull) (Fn h) (Samples.adapter_with [])
  = (Throw (TypeError "Callback ID cannot be undefined or null"), Samples.adapter_with [])
  /\ action (Bare (VString "pick_color")) (Fn h) (Samples.adapter_with [])
     = action (Plain {| callbackId := VString "pick_color"; type := VUndefined;
                        unfurl := None |}) (Fn h) (Samples.adapter_with []).
Proof.
  intros h. split.
  - apply (proj1 (bare_argument_is_the_callbackId VNull (Fn h) (Samples.adapter_with []))).
    right; reflexivity.
  - apply (proj2 (bare_argument_is_the_callbackId (VString "pick_color") (Fn h)
                    (Samples.adapter_with []))); discriminate.
Defined.

(** X6: [options] puts no condition on the type: with a function as callback
    and a callback ID that is unset, a string or a pattern, it stores the
    constraints as given, whatever their type is, also one that [action]
    refuses. *)
Theorem options_accepts_any_type c f a :
  valid_callbackId c ->
  options (Plain c) (Fn f) a = (Normal tt, push_callback (c, f) a)
  /\ (truthy (type c) = true ->
      type c <> VString "select" -> type c <> VString "button" ->
      type c <> VString "dialog_submission" ->
      fst (action (Plain c) (Fn f) a)
      = Throw (TypeError "Type must be 'select', 'button', or 'dialog_submission'")).
Proof.
  intros Hv. apply validateConstraints_none in Hv.
  unfold options, action. simpl. rewrite Hv. simpl. split; [reflexivity|].
  intros Ht H1 H2 H3.
  now rewrite (validateActionConstraints_unknown c Ht H1 H2 H3).
Qed.

Lemma options_accepts_any_type_witness :
  let c := {| callbackId := VString "pick_color"; type := VString "menu"; unfurl := None |} in
  let h := Samples.returns (Val VNull) in
  options (Plain c) (Fn h) (Samples.adapter_with [])
  = (Normal tt, Samples.adapter_with [(c, h)])
  /\ fst (action (Plain c) (Fn h) (Samples.adapter_with []))
     = Throw (TypeError "Type must be 'select', 'button', or 'dialog_submission'").
Proof.
  intros c h.
  destruct (options_accepts_any_type c h (Samples.adapter_with [])) as [H1 H2].
  - right; left; reflexivity.
  - split; [exact H1|]. apply H2; [reflexivity|discriminate..].
Defined.

(** ** Registration and the matcher together *)

Lemma find_append {A : Type} (f : A -> bool) (l l' : list A) :
  find f (l ++ l')%list
  = match find f l with Some x => Some x | None => find f l' end.
Proof.
  induction l as [|x l IH]; simpl; [reflexivity|].
  destruct (f x); [reflexivity|exact IH].
Qed.

(** What a series of registrations can change: it adds entries behind the
    ones that are there, and nothing else. *)
Lemma register_all_extends rs a :
  exists added,
    callbacks (register_all rs a) = (callbacks a ++ added)%list
    /\ Forall (fun entry => valid_callbackId (fst entry)) added
    /\ verificationToken (register_all rs a) = verificationToken a
    /\ syncResponseTimeout (register_all rs a) = syncResponseTimeout a
    /\ lateResponseFallbackEnabled (register_all rs a) = lateResponseFallbackEnabled a.
Proof.
  revert a. induction rs as [|r rs IH]; intros a; simpl.
  - exists []. rewrite app_nil_r. repeat split. constructor.
  - destruct (IH (snd (register r a))) as (added & Hc & Hv & Ht & Hs & Hl).
    destruct (register_cases r a) as [(msg & Hr) | (c & h & Hvalid & Hr)];
      rewrite Hr in *; simpl in *.
    + exists added. repeat split; assumption.
    + exists ((c, h) :: added). rewrite Hc, <- app_assoc. simpl.
      repeat split; try assumption. constructor; assumption.
Qed.

(** [dispatch] reads the adapter through the match, the timeout and the
    fallback switch only. *)
Lemma dispatch_reads PT a a' p :
  matchCallback a' p = matchCallback a p ->
  syncResponseTimeout a' = syncResponseTimeout a ->
  lateResponseFallbackEnabled a' = lateResponseFallbackEnabled a ->
  dispatch PT a' p = dispatch PT a p.
Proof.
  intros Hm Hs Hl. unfold dispatch. rewrite Hm, Hs.
  destruct (matchCallback a p) as [[c h]|]; [|reflexivity]. cbv zeta.
  destruct (outcome (h p (respond_for p))) as [x|e]; [|reflexivity].
  destruct (js_truthy x); [|reflexivity].
  replace (on_rejected PT a' p (respond_for p) x)
    with (on_rejected PT a p (respond_for p) x); [reflexivity|].
  unfold on_rejected. now rewrite Hl.
Qed.

(** X7: registering more handlers, by any series of [action] and [options]
    calls, never changes what [dispatch] does with a payload that already had a
    matching entry: the same handler is called and the same result and
    requests come out. *)
Theorem later_registrations_keep_the_response PT rs a p entry :
  matchCallback a p = Some entry ->
  matchCallback (register_all rs a) p = Some entry
  /\ dispatch PT (register_all rs a) p = dispatch PT a p.
Proof.
  intros Hm.
  destruct (register_all_extends rs a) as (added & Hc & _ & _ & Hs & Hl).
  assert (Hm' : matchCallback (register_all rs a) p = Some entry).
  { unfold matchCallback in *. now rewrite Hc, find_append, Hm. }
  split; [exact Hm'|].
  apply dispatch_reads; [now rewrite Hm', Hm|exact Hs|exact Hl].
Qed.

Lemma later_registrations_keep_the_response_witness :
  let first := Samples.returns (Val (VString "first")) in
  let second := Samples.returns (Val (VString "second")) in
  let a := Samples.adapter_with [(Samples.pick_color, first)] in
  let rs := [ByOptions (Plain Samples.no_constraint) (Fn second);
             ByAction (Bare VNull) (Fn second)] in
  matchCallback (register_all rs a) Samples.click = Some (Samples.pick_color, first)
  /\ dispatch Samples.PT (register_all rs a) Samples.click
     = dispatch Samples.PT a Samples.click.
Proof.
  intros first second a rs.
  apply (later_registrations_keep_the_response Samples.PT rs a Samples.click
           (Samples.pick_color, first)).
  reflexivity.
Defined.





(** ** What a match says about the payload *)

Lemma callbackId_test_passes c p :
  callbackId_rejects c p = false <->
  (forall s, callbackId c = VString s -> s <> "" -> callback_id p = VString s)
  /\ (isRegExp (callbackId c) = true ->
      regexp_test (callbackId c) (callback_id p) = true).
Proof.
  unfold callbackId_rejects.
  destruct (callbackId c) as [| |b|n| |s|i src test|i props] eqn:Hid; simpl;
    try (split; [intros _; split; [intros s0 Hs0; discriminate|discriminate]
                |intros _; now repeat match goal with |- context [if ?b then _ else _] =>
                                        destruct b end]).
  - (* a string *)
    destruct (String.eqb s "") eqn:Hempty; simpl.
    + apply String.eqb_eq in Hempty. subst s.
      split; [|reflexivity]. intros _. split; [|discriminate].
      intros s0 Hs0 Hne. injection Hs0 as <-. now elim Hne.
    + destruct (strict_equal (callback_id p) (VString s)) eqn:Heq; simpl.
      * apply strict_equal_string in Heq. split; [|reflexivity].
        intros _. split; [|discriminate].
        intros s0 Hs0 _. injection Hs0 as <-. exact Heq.
      * split; [discriminate|]. intros [Hs _].
        apply String.eqb_neq in Hempty.
        rewrite (proj2 (strict_equal_string _ _) (Hs s eq_refl Hempty)) in Heq.
        discriminate.
  - (* a pattern *)
    destruct (test (to_string (callback_id p))); simpl.
    + split; [|reflexivity]. intros _. split; [intros s0 Hs0; discriminate|reflexivity].
    + split; [discriminate|]. intros [_ Hr]. specialize (Hr eq_refl). discriminate.
Qed.

Lemma type_test_passes c act :
  type_rejects c act = false <->
  (forall item, act = Some item -> truthy (type c) = true ->
     strict_equal (type c) (action_type item) = true).
Proof.
  unfold type_rejects. destruct act as [item|].
  - split.
    + intros H i Hi Ht. injection Hi as <-. rewrite Ht in H. simpl in H.
      now apply negb_false_iff in H.
    + intros H. destruct (truthy (type c)); [|reflexivity].
      simpl. now rewrite (H item eq_refl eq_refl).
  - split; [discriminate|reflexivity].
Qed.

Lemma unfurl_test_passes c p :
  unfurl_rejects c p = false <->
  (forall u, unfurl c = Some u -> truthy u = truthy (is_app_unfurl p)).
Proof.
  unfold unfurl_rejects. destruct (unfurl c) as [u|].
  - split.
    + intros H u' Hu'. injection Hu' as <-.
      destruct (truthy u), (truthy (is_app_unfurl p)); simpl in H;
        reflexivity || discriminate.
    + intros H. rewrite (H u eq_refl).
      now destruct (truthy (is_app_unfurl p)).
  - split; [discriminate|reflexivity].
Qed.

(** X10: an entry matches a payload exactly when every constraint that is
    set holds of it: a non-empty string callback ID is [payload.callback_id]
    itself, a pattern accepts the text of [payload.callback_id], a set type is
    the type of the payload's first action when there is one, and a present
    unfurl flag has the truthiness of [payload.is_app_unfurl]. *)
Theorem match_means_every_test_passed p c h :
  matches p (c, h) = true <->
  (forall s, callbackId c = VString s -> s <> "" -> callback_id p = VString s)
  /\ (isRegExp (callbackId c) = true ->
      regexp_test (callbackId c) (callback_id p) = true)
  /\ (forall item, first_action p = Some item -> truthy (type c) = true ->
        strict_equal (type c) (action_type item) = true)
  /\ (forall u, unfurl c = Some u -> truthy u = truthy (is_app_unfurl p)).
Proof.
  rewrite matches_unfold, !andb_true_iff, !negb_true_iff.
  rewrite callbackId_test_passes, type_test_passes, unfurl_test_passes.
  tauto.
Qed.

Lemma match_means_every_test_passed_witness :
  let c := {| callbackId := VString "pick_color"; type := VString "button";
              unfurl := Some (VBool false) |} in
  callback_id Samples.click = VString "pick_color"
  /\ strict_equal (type c) (VString "button") = true.
Proof.
  intros c.
  destruct (proj1 (match_means_every_test_passed Samples.click c
                     (Samples.returns (Val VNull))) eq_refl) as (Hid & _ & Hty & _).
  split.
  - apply (Hid "pick_color" eq_refl). discriminate.
  - apply (Hty {| action_type := VString "button" |} eq_refl eq_refl).
Defined.

(** X11: the type of the constraints plays no part when the payload has no
    first action (no [actions], or an empty array) or when the type is falsy:
    the entry then matches as it would without a type. *)
Theorem type_is_not_tested_without_action p c h :
  actions p = None \/ actions p = Some [] \/ truthy (type c) = false ->
  matches p (c, h) = matches p (without_type c, h).
Proof.
  intros H. rewrite !matches_unfold.
  replace (callbackId_rejects (without_type c) p) with (callbackId_rejects c p)
    by reflexivity.
  replace (unfurl_rejects (without_type c) p) with (unfurl_rejects c p)
    by reflexivity.
  replace (type_rejects (without_type c) (first_action p)) with false
    by (now destruct (first_action p)).
  replace (type_rejects c (first_action p)) with false; [reflexivity|].
  unfold type_rejects, first_action.
  destruct H as [-> | [-> | ->]]; try reflexivity.
  now destruct (actions p) as [[|item rest]|].
Qed.

Lemma type_is_not_tested_without_action_witness :
  let c := {| callbackId := VString "pick_color"; type := VString "select"; unfurl := None |} in
  matches Samples.dialog (c, Samples.returns (Val VNull))
  = matches Samples.dialog (without_type c, Samples.returns (Val VNull)).
Proof.
  intros c.
  apply (type_is_not_tested_without_action Samples.dialog c (Samples.returns (Val VNull))).
  left; reflexivity.
Defined.

(** X12: of the payload's actions only the first is looked at: the other
    elements of the array never change whether an entry matches. *)
Theorem only_the_first_action_counts p item rest entry :
  actions p = Some (item :: rest) ->
  matches p entry
  = matches {| callback_id := callback_id p;
               actions := Some [item];
               response_url := response_url p;
               is_app_unfurl := is_app_unfurl p;
               payload_type := payload_type p |} entry.
Proof.
  intros Ha. destruct entry as [c h]. rewrite !matches_unfold.
  unfold first_action. rewrite Ha. reflexivity.
Qed.

Lemma only_the_first_action_counts_witness :
  let two := {| callback_id := VString "pick_color";
                actions := Some [ {| action_type := VString "button" |};
                                  {| action_type := VString "select" |} ];
                response_url := VUndefined;
                is_app_unfurl := VUndefined;
                payload_type := VString "interactive_message" |} in
  let c := {| callbackId := VUndefined; type := VString "select"; unfurl := None |} in
  matches two (c, Samples.returns (Val VNull))
  = matches Samples.click (c, Samples.returns (Val VNull)).
Proof.
  intros two c.
  apply (only_the_first_action_counts two {| action_type := VString "button" |}
           [ {| action_type := VString "select" |} ] (c, Samples.returns (Val VNull))).
  reflexivity.
Defined.

(** ** Adapters built through the public interface *)

Lemma constructor_result token opts a :
  constructor token opts = Normal a ->
  callbacks a = [] /\ 1 <= syncResponseTimeout a <= 3000
  /\ verificationToken a = token.
Proof.
  unfold constructor.
  destruct (destructure_options opts) as [[timeout fallback]|e]; simpl; [|discriminate].
  destruct (isString token); simpl; [|discriminate].
  destruct (timeout >? 3000) eqn:Hhi; simpl; [discriminate|].
  destruct (timeout <? 1) eqn:Hlo; simpl; [discriminate|].
  intros H. injection H as <-. simpl. repeat split; lia.
Qed.

(** X13: in an adapter made by the constructor and filled by [action] and
    [options] calls, every entry has a callback ID that is unset, a string or
    a pattern; so a callback ID that is set is never passed over by the
    matcher: a payload the entry matches has that very string as
    [callback_id], or is accepted by the pattern. *)
Theorem registered_callbackIds_are_enforced token opts a0 rs c h p :
  constructor token opts = Normal a0 ->
  In (c, h) (callbacks (register_all rs a0)) ->
  valid_callbackId c
  /\ (truthy (callbackId c) = true ->
      matches p (c, h) = true ->
      callback_id p = callbackId c
      \/ (isRegExp (callbackId c) = true
          /\ regexp_test (callbackId c) (callback_id p) = true)).
Proof.
  intros Hnew Hin.
  destruct (constructor_result token opts a0 Hnew) as (Hempty & _ & _).
  destruct (register_all_extends rs a0) as (added & Hc & Hvalid & _).
  rewrite Hc, Hempty in Hin. simpl in Hin.
  assert (Hv : valid_callbackId c)
    by (apply (proj1 (Forall_forall _ added) Hvalid (c, h) Hin)).
  split; [exact Hv|].
  intros Hset Hmatch.
  rewrite matches_unfold, !andb_true_iff, !negb_true_iff in Hmatch.
  destruct Hmatch as [[Hid _] _].
  apply callbackId_test_passes in Hid. destruct Hid as [Hstr Hre].
  destruct Hv as [Hfalsy | [Hs | Hr]].
  - congruence.
  - left. destruct (callbackId c) as [| | | | |s| |] eqn:E; try discriminate.
    apply (Hstr s eq_refl). intros ->. discriminate.
  - right. split; [exact Hr|exact (Hre Hr)].
Qed.

Lemma registered_callbackIds_are_enforced_witness :
  let h := Samples.returns (Val VNull) in
  valid_callbackId Samples.pick_color
  /\ (callback_id Samples.click = callbackId Samples.pick_color
      \/ (isRegExp (callbackId Samples.pick_color) = true
          /\ regexp_test (callbackId Samples.pick_color) (callback_id Samples.click) = true)).
Proof.
  intros h.
  destruct (registered_callbackIds_are_enforced (VString "token") OptsUndefined
              (Samples.adapter_with [])
              [ByAction (Bare (VNumber 7)) (Fn h);
               ByAction (Bare (VString "pick_color")) (Fn h)]
              Samples.pick_color h Samples.click eq_refl) as [Hv Hm].
  - simpl. left; reflexivity.
  - split; [exact Hv|]. apply Hm; reflexivity.
Defined.

(** X14: whatever is registered afterwards, an adapter keeps the token, the
    timeout and the fallback switch it was constructed with; and a truthy
    value that its matched handler returns at once wins the race: it is the
    content of the result, at status 200, and [dispatch] sends nothing of its
    own. *)
Theorem constructed_adapter_keeps_its_settings PT token opts a0 rs :
  constructor token opts = Normal a0 ->
  verificationToken (register_all rs a0) = token
  /\ syncResponseTimeout (register_all rs a0) = syncResponseTimeout a0
  /\ lateResponseFallbackEnabled (register_all rs a0) = lateResponseFallbackEnabled a0
  /\ (forall p c h v,
        matchCallback (register_all rs a0) p = Some (c, h) ->
        outcome (h p (respond_for p)) = Normal (Val v) ->
        truthy v = true ->
        returned (dispatch PT (register_all rs a0) p)
        = {| status := 200; content := Some (Prom (SettlesAt 0 (Fulfilled v))) |}
        /\ posted (dispatch PT (register_all rs a0) p) = handler_posts h p).
Proof.
  intros Hnew.
  destruct (constructor_result token opts a0 Hnew) as (_ & Hrange & Htok).
  destruct (register_all_extends rs a0) as (added & _ & _ & Ht & Hs & Hl).
  split; [now rewrite Ht|split; [exact Hs|split; [exact Hl|]]].
  intros p c h v Hm Hh Hv.
  destruct (dispatch_truthy PT _ p c h (Val v) Hm Hh Hv) as [-> ->].
  unfold promiseTimeout. cbn [resolve_at]. rewrite Hs.
  replace (0 <=? syncResponseTimeout a0) with true by lia.
  split; [reflexivity|apply app_nil_r].
Qed.

Lemma constructed_adapter_keeps_its_settings_witness :
  let h := Samples.replies "seen" Samples.picked_red (Val Samples.picked_red) in
  let rs := [ByAction (Bare (VString "pick_color")) (Fn h)] in
  let a := register_all rs (Samples.adapter_with []) in
  verificationToken a = VString "token"
  /\ returned (dispatch Samples.PT a Samples.click_with_url)
     = {| status := 200; content := Some (Prom (SettlesAt 0 (Fulfilled Samples.picked_red))) |}
  /\ posted (dispatch Samples.PT a Samples.click_with_url)
     = handler_posts h Samples.click_with_url.
Proof.
  intros h rs a.
  destruct (constructed_adapter_keeps_its_settings Samples.PT (VString "token")
              OptsUndefined (Samples.adapter_with []) rs eq_refl) as (H1 & _ & _ & H4).
  split; [exact H1|].
  apply (H4 Samples.click_with_url Samples.pick_color h Samples.picked_red); reflexivity.
Defined.

(** X15: with a string token and options that are not [null], the
    constructor throws the range error exactly when the timeout in force (the
    one given, or 2500) is below 1 or above 3000, and returns an adapter
    otherwise. *)
Theorem constructor_checks_the_range token opts timeout fallback :
  isString token = true ->
  destructure_options opts = Normal (timeout, fallback) ->
  (timeout < 1 \/ 3000 < timeout ->
     constructor token opts
     = Throw (TypeError "syncResponseTimeout must be between 1 and 3000"))
  /\ (constructor token opts
      = Throw (TypeError "syncResponseTimeout must be between 1 and 3000") ->
      timeout < 1 \/ 3000 < timeout).
Proof.
  intros Htok Hopts. unfold constructor. rewrite Hopts. simpl. rewrite Htok. simpl.
  destruct (timeout >? 3000) eqn:Hhi; simpl.
  - split; [reflexivity|]. intros _. right. lia.
  - destruct (timeout <? 1) eqn:Hlo; simpl.
    + split; [reflexivity|]. intros _. left. lia.
    + split; [intros [H | H]; lia|discriminate].
Qed.

Lemma constructor_checks_the_range_witness :
  constructor (VString "token")
    (OptsObject {| opt_syncResponseTimeout := Some 3001;
                   opt_lateResponseFallbackEnabled := Some false |})
  = Throw (TypeError "syncResponseTimeout must be between 1 and 3000").
Proof.
  apply (proj1 (constructor_checks_the_range (VString "token")
                  (OptsObject {| opt_syncResponseTimeout := Some 3001;
                                 opt_lateResponseFallbackEnabled := Some false |})
                  3001 false eq_refl eq_refl)).
  right. lia.
Defined.

(** X16: an option that is left out takes its default by itself: without
    [syncResponseTimeout] the timeout is 2500 and without
    [lateResponseFallbackEnabled] the fallback is on, whatever the other option
    is; no options at all and an empty options object give the same adapter. *)
Theorem constructor_defaults token o :
  isString token = true ->
  (opt_syncResponseTimeout o = None ->
     exists a, constructor token (OptsObject o) = Normal a
               /\ syncResponseTimeout a = 2500)
  /\ (opt_lateResponseFallbackEnabled o = None ->
      forall a, constructor token (OptsObject o) = Normal a ->
                lateResponseFallbackEnabled a = true)
  /\ constructor token OptsUndefined
     = constructor token (OptsObject {| opt_syncResponseTimeout := None;
                                        opt_lateResponseFallbackEnabled := None |}).
Proof.
  intros Htok. split; [|split].
  - intros Hnone. unfold constructor. simpl. rewrite Hnone, Htok. simpl. eauto.
  - intros Hnone a. unfold constructor. simpl. rewrite Hnone, Htok. simpl.
    destruct (_ || _); [discriminate|]. intros H. now injection H as <-.
  - reflexivity.
Qed.

Lemma constructor_defaults_witness :
  exists a,
    constructor (VString "token")
      (OptsObject {| opt_syncResponseTimeout := None;
                     opt_lateResponseFallbackEnabled := Some false |}) = Normal a
    /\ syncResponseTimeout a = 2500.
Proof.
  apply (proj1 (constructor_defaults (VString "token")
                  {| opt_syncResponseTimeout := None;
                     opt_lateResponseFallbackEnabled := Some false |} eq_refl)).
  reflexivity.
Defined.

(** ** More on the response race *)

(** X17: when the matched handler returns a promise that fulfils before the
    deadline, the content is that promise's value, available when the promise
    fulfils, at status 200; with or without a response URL, [dispatch] sends
    nothing of its own: the requests are those of the handler's own calls of
    [respond]. *)
Theorem dispatch_resolved_before_deadline PT a p c h t v :
  matchCallback a p = Some (c, h) ->
  outcome (h p (respond_for p)) = Normal (Prom (SettlesAt t (Fulfilled v))) ->
  0 <= t < syncResponseTimeout a ->
  returned (dispatch PT a p)
  = {| status := 200; content := Some (Prom (SettlesAt t (Fulfilled v))) |}
  /\ posted (dispatch PT a p) = handler_posts h p.
Proof.
  intros Hm Hh Ht.
  destruct (dispatch_truthy PT a p c h _ Hm Hh eq_refl) as [-> ->].
  rewrite promiseTimeout_early by lia. split; [reflexivity|apply app_nil_r].
Qed.

Lemma dispatch_resolved_before_deadline_witness :
  let h := Samples.replies "seen" (VString "on it")
             (Prom (SettlesAt 100 (Fulfilled Samples.picked_red))) in
  let a := Samples.adapter_with [(Samples.pick_color, h)] in
  returned (dispatch Samples.PT a Samples.click_with_url)
  = {| status := 200; content := Some (Prom (SettlesAt 100 (Fulfilled Samples.picked_red))) |}
  /\ posted (dispatch Samples.PT a Samples.click_with_url)
     = [ {| post_at := 0; post_url := VString "https://hooks.example/r/1";
            post_body := VString "on it" |} ].
Proof.
  intros h a.
  apply (dispatch_resolved_before_deadline Samples.PT a Samples.click_with_url
           Samples.pick_color h 100 Samples.picked_red); [reflexivity|reflexivity|].
  simpl; lia.
Defined.

(** X18: the status of a result is 200 or 500 and nothing else; it is 500,
    and the result then has no content, exactly when an entry matched and its
    handler threw; every result of status 200 has a content. *)
Theorem dispatch_status_is_200_or_500 PT a p :
  (status (returned (dispatch PT a p)) = 200
   /\ content (returned (dispatch PT a p)) <> None
   /\ (forall c h, matchCallback a p = Some (c, h) ->
         exists x, outcome (h p (respond_for p)) = Normal x))
  \/ (status (returned (dispatch PT a p)) = 500
      /\ content (returned (dispatch PT a p)) = None
      /\ exists c h e, matchCallback a p = Some (c, h)
                       /\ outcome (h p (respond_for p)) = Throw e).
Proof.
  unfold dispatch.
  destruct (matchCallback a p) as [[c h]|] eqn:Hm.
  - cbv zeta. destruct (outcome (h p (respond_for p))) as [x|e] eqn:Hh.
    + left.
      assert (Hcall : forall c' h', Some (c, h) = Some (c', h') ->
                        exists x', outcome (h' p (respond_for p)) = Normal x').
      { intros c' h' E. injection E as <- <-. eauto. }
      destruct (js_truthy x).
      * destruct (promise_catch _ _). simpl.
        repeat split; [discriminate|exact Hcall].
      * simpl. repeat split; [discriminate|exact Hcall].
    + right. simpl. repeat split. exists c, h, e. split; [reflexivity|exact Hh].
  - left. simpl. repeat split; [discriminate|]. intros c h E. discriminate.
Qed.

Lemma deliver_late_sends x url now posts sent :
  deliver_late x url now = Normal posts ->
  In sent posts ->
  posts = [sent]
  /\ exists t, x = Prom (SettlesAt t (Fulfilled (post_body sent)))
               /\ post_url sent = url /\ post_at sent = Z.max now t
               /\ post_body sent <> VUndefined /\ post_body sent <> VNull.
Proof.
  destruct x as [v|[|t [v|e]]]; simpl.
  - destruct (get_prop v "then"); discriminate.
  - intros H. injection H as <-. intros [].
  - unfold respond. destruct v; simpl; intros H; injection H as <-;
      intros Hin; try (now destruct Hin);
      destruct Hin as [<- | []]; (split; [reflexivity|]);
      exists t; simpl; repeat split; discriminate.
  - intros H. injection H as <-. intros [].
Qed.

Lemma on_rejected_sends PT a p r x now e sent :
  In sent (snd (on_rejected PT a p r x now e)) ->
  lateResponseFallbackEnabled a = true
  /\ payload_type p <> VString "dialog_submission"
  /\ error_code e = Normal (VString PT)
  /\ exists url posts,
       r = Some url /\ deliver_late x url now = Normal posts /\ In sent posts.
Proof.
  unfold on_rejected.
  destruct (error_code e) as [code|e']; [|intros []].
  destruct (strict_equal code (VString PT)) eqn:Hcode; [|intros []].
  apply strict_equal_string in Hcode. subst code.
  destruct (lateResponseFallbackEnabled a); simpl; [|intros []].
  destruct r as [url|]; simpl; [|intros []].
  destruct (strict_equal (payload_type p) (VString "dialog_submission")) eqn:Hty;
    [intros []|].
  destruct (deliver_late x url now) as [posts|e'] eqn:Hd; [|intros []].
  simpl. intros Hin.
  split; [reflexivity|split; [|split; [reflexivity|]]].
  - intros Heq. rewrite Heq in Hty. simpl in Hty. discriminate.
  - exists url, posts. split; [reflexivity|split; [exact Hd|exact Hin]].
Qed.

Lemma own_posts_sends r calls sent :
  In sent (own_posts r calls) ->
  exists url,
    r = Some url /\ post_url sent = url
    /\ In (post_at sent, post_body sent) calls
    /\ post_body sent <> VUndefined /\ post_body sent <> VNull.
Proof.
  unfold own_posts. destruct r as [url|]; [|intros []].
  intros Hin. apply in_flat_map in Hin. destruct Hin as ([t m] & Hcall & Hs).
  exists url. simpl in Hs. unfold respond in Hs.
  destruct m; simpl in Hs; try (now destruct Hs);
    destruct Hs as [<- | []]; simpl; repeat split; try exact Hcall; discriminate.
Qed.

(** The requests of a dispatch that matched: those of the handler, and
    behind them what the callback of the race sets off. *)
Lemma dispatch_posted_cases PT a p c h :
  matchCallback a p = Some (c, h) ->
  posted (dispatch PT a p) = handler_posts h p
  \/ exists x,
       outcome (h p (respond_for p)) = Normal x /\ js_truthy x = true
       /\ posted (dispatch PT a p)
          = (handler_posts h p
             ++ snd (promise_catch (promiseTimeout PT (syncResponseTimeout a) x)
                                   (on_rejected PT a p (respond_for p) x)))%list.
Proof.
  intros Hm. unfold dispatch. rewrite Hm. cbv zeta. fold (handler_posts h p).
  destruct (outcome (h p (respond_for p))) as [x|e]; [|now left].
  destruct (js_truthy x) eqn:Hx; [|now left].
  right. exists x. split; [reflexivity|split; [exact Hx|]].
  now destruct (promise_catch _ _).
Qed.

(** X20: every request of a dispatch goes to [payload.response_url], which
    is then truthy, and carries a message that is neither [undefined] nor
    [null].  It is either a call of [respond] made by the matched handler, or
    the one request [dispatch] makes itself, and that only in the fallback
    case: the fallback is enabled, the payload is not a dialog submission, the
    handler returned a promise, and the request leaves, not before the
    deadline, with the value that promise fulfilled with. *)
Theorem requests_are_the_handlers_or_the_late_fallback PT a p sent :
  In sent (posted (dispatch PT a p)) ->
  truthy (response_url p) = true
  /\ post_url sent = response_url p
  /\ post_body sent <> VUndefined /\ post_body sent <> VNull
  /\ exists c h,
       matchCallback a p = Some (c, h)
       /\ (In (post_at sent, post_body sent) (responds (h p (respond_for p)))
           \/ (posted (dispatch PT a p) = (handler_posts h p ++ [sent])%list
               /\ lateResponseFallbackEnabled a = true
               /\ payload_type p <> VString "dialog_submission"
               /\ syncResponseTimeout a <= post_at sent
               /\ exists t,
                    outcome (h p (respond_for p))
                    = Normal (Prom (SettlesAt t (Fulfilled (post_body sent)))))).
Proof.
  intros Hin.
  destruct (matchCallback a p) as [[c h]|] eqn:Hm;
    [|rewrite (dispatch_unmatched PT a p Hm) in Hin; destruct Hin].
  assert (Hown : In sent (handler_posts h p) ->
            truthy (response_url p) = true
            /\ post_url sent = response_url p
            /\ post_body sent <> VUndefined /\ post_body sent <> VNull
            /\ In (post_at sent, post_body sent) (responds (h p (respond_for p)))).
  { intros Hh.
    destruct (own_posts_sends _ _ sent Hh) as (url & Hr & Hurl & Hcall & Hb1 & Hb2).
    unfold respond_for in Hr.
    destruct (truthy (response_url p)) eqn:Htr; [|discriminate].
    injection Hr as <-. repeat split; assumption. }
  destruct (dispatch_posted_cases PT a p c h Hm) as [Hp | (x & Hh & Hx & Hp)];
    rewrite Hp in Hin.
  { destruct (Hown Hin) as (H1 & H2 & H3 & H4 & H5).
    repeat (split; [assumption|]). exists c, h. split; [reflexivity|now left]. }
  apply in_app_or in Hin. destruct Hin as [Hin | Hin].
  { destruct (Hown Hin) as (H1 & H2 & H3 & H4 & H5).
    repeat (split; [assumption|]). exists c, h. split; [reflexivity|now left]. }
  clear Hown.
  destruct (promise_catch _ _) as [pr posts] eqn:Hpc. simpl in Hin, Hp.
  unfold promise_catch in Hpc.
  destruct (promiseTimeout PT (syncResponseTimeout a) x) as [|now [v|e]] eqn:Hrace;
    try (injection Hpc as <- <-; now destruct Hin).
  destruct (on_rejected PT a p (respond_for p) x now e) as [cpl posts'] eqn:Hon.
  injection Hpc as <- <-.
  assert (Hin' : In sent (snd (on_rejected PT a p (respond_for p) x now e)))
    by (rewrite Hon; exact Hin).
  destruct (on_rejected_sends PT a p _ x now e sent Hin')
    as (Hen & Hty & Hcode & url & ps & Hr & Hd & Hps).
  destruct (deliver_late_sends x url now ps sent Hd Hps)
    as (Hone & t & -> & Hurl & Hat & Hb1 & Hb2).
  assert (Hposts : posts' = ps).
  { unfold on_rejected in Hon. rewrite Hcode, strict_equal_code_refl, Hen, Hr in Hon.
    rewrite (strict_equal_string_false _ _ Hty), Hd in Hon. simpl in Hon.
    now injection Hon as _ <-. }
  unfold respond_for in Hr.
  destruct (truthy (response_url p)) eqn:Htr; [|discriminate].
  injection Hr as <-.
  (* the rejection came from the timer: the handler's promise fulfils *)
  assert (Hnow : now = syncResponseTimeout a).
  { unfold promiseTimeout in Hrace. simpl in Hrace.
    destruct (Z.max 0 t <=? syncResponseTimeout a); [discriminate|].
    now injection Hrace as <- _. }
  split; [reflexivity|split; [exact Hurl|split; [exact Hb1|split; [exact Hb2|]]]].
  exists c, h. split; [reflexivity|right].
  split; [congruence|split; [exact Hen|split; [exact Hty|split]]].
  - rewrite Hat, Hnow. lia.
  - exists t. exact Hh.
Qed.

Lemma requests_are_the_handlers_or_the_late_fallback_witness :
  let late := SettlesAt 3000 (Fulfilled Samples.picked_red) in
  let h := Samples.replies "seen" (VString "on it") (Prom late) in
  let a := Samples.adapter_with [(Samples.pick_color, h)] in
  let sent := {| post_at := 3000; post_url := VString "https://hooks.example/r/1";
                 post_body := Samples.picked_red |} in
  truthy (response_url Samples.click_with_url) = true
  /\ post_url sent = response_url Samples.click_with_url
  /\ post_body sent <> VUndefined /\ post_body sent <> VNull.
Proof.
  intros late h a sent.
  destruct (requests_are_the_handlers_or_the_late_fallback Samples.PT a
              Samples.click_with_url sent) as (H1 & H2 & H3 & H4 & _).
  - right; left; reflexivity.
  - repeat split; assumption.
Defined.

(** X21: in the fallback case a late promise that fails, or that fulfils with
    [undefined] or [null], or that never settles, makes [dispatch] send no
    request of its own: the result is the empty content at the deadline, and
    the requests are those of the handler's own calls of [respond]. *)
Theorem late_failure_is_not_delivered PT a p c h d :
  matchCallback a p = Some (c, h) ->
  outcome (h p (respond_for p)) = Normal (Prom d) ->
  settles_after (syncResponseTimeout a) d ->
  lateResponseFallbackEnabled a = true ->
  truthy (response_url p) = true ->
  payload_type p <> VString "dialog_submission" ->
  (forall t v, d = SettlesAt t (Fulfilled v) -> v = VUndefined \/ v = VNull) ->
  returned (dispatch PT a p)
  = {| status := 200;
       content := Some (Prom (SettlesAt (syncResponseTimeout a) (Fulfilled (VString "")))) |}
  /\ posted (dispatch PT a p) = handler_posts h p.
Proof.
  intros Hm Hh Hlate Hen Hurl Hty Hd.
  destruct (dispatch_truthy PT a p c h (Prom d) Hm Hh eq_refl) as [-> ->].
  rewrite (promiseTimeout_late PT _ d Hlate).
  unfold promise_catch, on_rejected.
  rewrite timeout_error_code, strict_equal_code_refl.
  unfold respond_for. rewrite Hen, Hurl.
  rewrite (strict_equal_string_false _ _ Hty). cbn [negb orb].
  assert (Hnone : deliver_late (Prom d) (response_url p) (syncResponseTimeout a)
                  = Normal []).
  { destruct d as [|t [v|e]]; try reflexivity.
    destruct (Hd t v eq_refl) as [-> | ->]; reflexivity. }
  rewrite Hnone. split; [reflexivity|apply app_nil_r].
Qed.

Lemma late_failure_is_not_delivered_witness :
  let failing := SettlesAt 3000 (Rejected (TypeError "boom")) in
  let a := Samples.adapter_with [(Samples.pick_color, Samples.returns (Prom failing))] in
  returned (dispatch Samples.PT a Samples.click_with_url)
  = {| status := 200; content := Some (Prom (SettlesAt 2500 (Fulfilled (VString "")))) |}
  /\ posted (dispatch Samples.PT a Samples.click_with_url) = [].
Proof.
  intros failing a.
  apply (late_failure_is_not_delivered Samples.PT a Samples.click_with_url
           Samples.pick_color (Samples.returns (Prom failing)) failing);
    [reflexivity | reflexivity | simpl; lia | reflexivity | reflexivity
    | discriminate | intros t v H; discriminate].
Defined.

(** X23: when the matched handler's promise rejects before the deadline
    with [undefined] or [null] as reason, reading [error.code] throws inside
    the callback: the status is 200 and the content rejects, at the time of the
    rejection, with that TypeError; the fixed error text is not produced and
    [dispatch] sends nothing of its own. *)
Theorem rejection_without_reason_rejects_the_content PT a p c h t reason :
  matchCallback a p = Some (c, h) ->
  outcome (h p (respond_for p)) = Normal (Prom (SettlesAt t (Rejected (Thrown reason)))) ->
  0 <= t < syncResponseTimeout a ->
  reason = VUndefined \/ reason = VNull ->
  (exists message,
     returned (dispatch PT a p)
     = {| status := 200;
          content := Some (Prom (SettlesAt t (Rejected (TypeError message)))) |})
  /\ posted (dispatch PT a p) = handler_posts h p.
Proof.
  intros Hm Hh Ht Hreason.
  destruct (dispatch_truthy PT a p c h _ Hm Hh eq_refl) as [-> ->].
  rewrite promiseTimeout_early by lia.
  unfold promise_catch, on_rejected.
  destruct Hreason as [-> | ->]; simpl; (split; [eauto|apply app_nil_r]).
Qed.

Lemma rejection_without_reason_rejects_the_content_witness :
  let h := Samples.returns (Prom (SettlesAt 100 (Rejected (Thrown VNull)))) in
  let a := Samples.adapter_with [(Samples.pick_color, h)] in
  (exists message,
     returned (dispatch Samples.PT a Samples.click_with_url)
     = {| status := 200;
          content := Some (Prom (SettlesAt 100 (Rejected (TypeError message)))) |})
  /\ posted (dispatch Samples.PT a Samples.click_with_url) = [].
Proof.
  intros h a.
  apply (rejection_without_reason_rejects_the_content Samples.PT a Samples.click_with_url
           Samples.pick_color h 100 VNull);
    [reflexivity | reflexivity | simpl; lia | right; reflexivity].
Defined.

(** X24: the callback knows a timeout by the [code] of the error alone.  A
    handler's promise that rejects before the deadline with a reason carrying
    the timeout code is handled as a timeout: in the fallback case the content
    is the empty string, at the time of the rejection, and otherwise it is the
    handler's rejected promise; either way [dispatch] sends nothing of its
    own. *)
Theorem rejection_with_the_timeout_code PT a p c h t reason :
  matchCallback a p = Some (c, h) ->
  outcome (h p (respond_for p)) = Normal (Prom (SettlesAt t (Rejected reason))) ->
  0 <= t < syncResponseTimeout a ->
  error_code reason = Normal (VString PT) ->
  (lateResponseFallbackEnabled a = true ->
   truthy (response_url p) = true ->
   payload_type p <> VString "dialog_submission" ->
     returned (dispatch PT a p)
     = {| status := 200; content := Some (Prom (SettlesAt t (Fulfilled (VString "")))) |}
     /\ posted (dispatch PT a p) = handler_posts h p)
  /\ (lateResponseFallbackEnabled a = false \/ truthy (response_url p) = false
      \/ payload_type p = VString "dialog_submission" ->
      returned (dispatch PT a p)
      = {| status := 200; content := Some (Prom (SettlesAt t (Rejected reason))) |}
      /\ posted (dispatch PT a p) = handler_posts h p).
Proof.
  intros Hm Hh Ht Hcode.
  destruct (dispatch_truthy PT a p c h _ Hm Hh eq_refl) as [-> ->].
  rewrite promiseTimeout_early by lia.
  unfold promise_catch, on_rejected.
  rewrite Hcode, strict_equal_code_refl.
  split.
  - intros Hen Hurl Hty. unfold respond_for. rewrite Hen, Hurl.
    rewrite (strict_equal_string_false _ _ Hty). simpl.
    split; [reflexivity|apply app_nil_r].
  - intros Hin.
    assert (Hguard :
      negb (lateResponseFallbackEnabled a)
      || negb (match respond_for p with Some _ => true | None => false end)
      || strict_equal (payload_type p) (VString "dialog_submission") = true).
    { unfold respond_for. destruct Hin as [-> | [-> | ->]].
      - reflexivity.
      - now rewrite orb_true_r.
      - rewrite (proj2 (strict_equal_string _ _) eq_refl). now rewrite orb_true_r. }
    rewrite Hguard. simpl. rewrite Z.max_id.
    split; [reflexivity|apply app_nil_r].
Qed.

Lemma rejection_with_the_timeout_code_witness :
  let failure := Thrown (VObject 2 [("code", VString Samples.PT)]) in
  let h := Samples.returns (Prom (SettlesAt 100 (Rejected failure))) in
  let a := Samples.adapter_with [(Samples.pick_color, h)] in
  (returned (dispatch Samples.PT a Samples.click_with_url)
   = {| status := 200; content := Some (Prom (SettlesAt 100 (Fulfilled (VString "")))) |}
   /\ posted (dispatch Samples.PT a Samples.click_with_url) = [])
  /\ (returned (dispatch Samples.PT a Samples.dialog)
      = {| status := 200; content := Some (Prom (SettlesAt 100 (Rejected failure))) |}
      /\ posted (dispatch Samples.PT a Samples.dialog) = []).
Proof.
  intros failure h a. split.
  - apply (proj1 (rejection_with_the_timeout_code Samples.PT a Samples.click_with_url
                    Samples.pick_color h 100 failure eq_refl eq_refl
                    ltac:(simpl; lia) eq_refl)); [reflexivity|reflexivity|discriminate].
  - apply (proj2 (rejection_with_the_timeout_code Samples.PT a Samples.dialog
                    Samples.pick_color h 100 failure eq_refl eq_refl
                    ltac:(simpl; lia) eq_refl)).
    right; right; reflexivity.
Defined.

(** ** Stopping *)

(** X22: [stop] on an adapter that holds no server rejects with its fixed
    error and leaves the adapter without one; and once the callback of
    [server.close] has run, with an error or without, the [server] property is
    gone, so that a further [stop] rejects with that fixed error, whatever
    closing would do. *)
Theorem stop_needs_a_started_server close server :
  (server = None ->
     stop close server = (SettlesAt 0 (Rejected stop_error), None))
  /\ (forall t error,
        snd (stop (CallbackCalled t error) server) = None
        \/ (snd (stop (CallbackCalled t error) server) = server
            /\ fst (stop (CallbackCalled t error) server)
               = SettlesAt 0 (Rejected stop_error)))
  /\ (forall t error,
        fst (stop close (snd (stop (CallbackCalled t error) server)))
        = SettlesAt 0 (Rejected stop_error)).
Proof.
  split; [|split].
  - intros ->. reflexivity.
  - intros t error. unfold stop.
    destruct server as [s|]; [destruct (truthy s)|]; simpl; auto.
  - intros t error. unfold stop.
    destruct server as [s|]; [destruct (truthy s) eqn:Hs|]; simpl;
      rewrite ?Hs; reflexivity.
Qed.

Lemma stop_needs_a_started_server_witness :
  stop CallbackNotCalled None = (SettlesAt 0 (Rejected stop_error), None)
  /\ fst (stop (CallbackCalled 5 VUndefined)
               (snd (stop (CallbackCalled 40 VUndefined) (Some (VObject 9 [])))))
     = SettlesAt 0 (Rejected stop_error).
Proof.
  split.
  - apply (proj1 (stop_needs_a_started_server CallbackNotCalled None) eq_refl).
  - apply (proj2 (proj2 (stop_needs_a_started_server (CallbackCalled 5 VUndefined)
                           (Some (VObject 9 [])))) 40 VUndefined).
Defined.
